(** * Sports match report generator: retrieval core and fallback composer

    A shallow embedding of [utils.py] and of the session handling of
    [app.py].  Python [str] values are modelled as Rocq strings whose
    characters are code points below 256; Python [int] as [Z]; Python
    lists as Rocq lists; exceptions as values of a sum type. *)

From Stdlib Require Import ZArith List Bool Ascii String Lia Arith.
Import ListNotations.

Local Open Scope string_scope.
Local Open Scope Z_scope.

(** ** Python values and exceptions *)

Inductive exn : Type :=
| ValueError (msg : string)
| IndexError (msg : string)
| AttributeError (msg : string)
| OtherError (msg : string).

(** [str(e)] of an exception. *)
Definition exn_str (e : exn) : string :=
  match e with
  | ValueError m | IndexError m | AttributeError m | OtherError m => m
  end.

Inductive result (A : Type) : Type :=
| Ok (a : A)
| Raise (e : exn).
Arguments Ok {A} a.
Arguments Raise {A} e.

Definition rbind {A B : Type} (m : result A) (k : A -> result B) : result B :=
  match m with
  | Ok a => k a
  | Raise e => Raise e
  end.

Module PyStr.

(** [str.isspace] on one code point below 256: TAB..CR, FS..US, SPACE,
    NEL (0x85) and NBSP (0xA0). *)
Definition is_space (c : ascii) : bool :=
  let n := nat_of_ascii c in
  ((9 <=? n) && (n <=? 13) || (28 <=? n) && (n <=? 32)
   || (n =? 133) || (n =? 160))%nat.

(** [\d] of the [re] module on a code point below 256. *)
Definition is_digit (c : ascii) : bool :=
  let n := nat_of_ascii c in ((48 <=? n) && (n <=? 57))%nat.

(** [str.lower] on one code point below 256: A..Z and the Latin-1
    capitals 0xC0..0xDE except the multiplication sign 0xD7. *)
Definition lower_char (c : ascii) : ascii :=
  let n := nat_of_ascii c in
  if ((65 <=? n) && (n <=? 90)
      || (192 <=? n) && (n <=? 222) && negb (n =? 215))%nat
  then ascii_of_nat (n + 32) else c.

Fixpoint lower (s : string) : string :=
  match s with
  | EmptyString => EmptyString
  | String c s' => String (lower_char c) (lower s')
  end.

Definition nonempty (s : string) : bool :=
  match s with EmptyString => false | String _ _ => true end.

(** A word is kept only when it has at least one character. *)
Definition cons_word (w : string) (ws : list string) : list string :=
  if nonempty w then w :: ws else ws.

(** [words_aux s] is the (possibly empty) word that starts [s] together
    with the words that follow its first white space. *)
Fixpoint words_aux (s : string) : string * list string :=
  match s with
  | EmptyString => (EmptyString, [])
  | String c s' =>
      let (w, ws) := words_aux s' in
      if is_space c then (EmptyString, cons_word w ws)
      else (String c w, ws)
  end.

(** [s.split()]: the maximal runs of non-space characters. *)
Definition split (s : string) : list string :=
  let (w, ws) := words_aux s in cons_word w ws.

(** [sep.join(ws)]. *)
Definition join (sep : string) (ws : list string) : string :=
  String.concat sep ws.

Fixpoint lstrip (s : string) : string :=
  match s with
  | EmptyString => EmptyString
  | String c s' => if is_space c then lstrip s' else s
  end.

Fixpoint rstrip (s : string) : string :=
  match s with
  | EmptyString => EmptyString
  | String c s' =>
      match rstrip s' with
      | EmptyString => if is_space c then EmptyString else String c EmptyString
      | r => String c r
      end
  end.

(** [s.strip()]. *)
Definition strip (s : string) : string := rstrip (lstrip s).

(** [s.startswith(p)]. *)
Fixpoint startswith (s p : string) {struct p} : bool :=
  match p, s with
  | EmptyString, _ => true
  | String a p', String b s' => Ascii.eqb a b && startswith s' p'
  | String _ _, EmptyString => false
  end.

(** [needle in hay] on strings. *)
Fixpoint contains (hay needle : string) : bool :=
  startswith hay needle ||
  match hay with
  | EmptyString => false
  | String _ hay' => contains hay' needle
  end.

(** [s[:n]]. *)
Fixpoint take (n : nat) (s : string) : string :=
  match n, s with
  | S n', String c s' => String c (take n' s')
  | _, _ => EmptyString
  end.

(** [s.split(sep)[0]] for a one-character separator. *)
Fixpoint before_char (sep : ascii) (s : string) : string :=
  match s with
  | EmptyString => EmptyString
  | String c s' => if Ascii.eqb c sep then EmptyString
                   else String c (before_char sep s')
  end.

End PyStr.

Module PyList.

(** Normalisation of a slice bound against a length, as [list.__getitem__]
    does for a slice with step 1. *)
Definition clamp (len i : Z) : Z :=
  if i <? 0 then Z.max 0 (i + len) else Z.min i len.

(** [l[i:j]]. *)
Definition slice {A : Type} (l : list A) (i j : Z) : list A :=
  let len := Z.of_nat (List.length l) in
  let a := clamp len i in
  let b := clamp len j in
  firstn (Z.to_nat (b - a)) (skipn (Z.to_nat a) l).

(** [l[i]]: negative indices count from the end, anything else out of
    range raises [IndexError]. *)
Definition index {A : Type} (l : list A) (i : Z) : result A :=
  let len := Z.of_nat (List.length l) in
  let j := if i <? 0 then i + len else i in
  if (j <? 0) || (len <=? j) then Raise (IndexError "list index out of range")
  else match nth_error l (Z.to_nat j) with
       | Some x => Ok x
       | None => Raise (IndexError "list index out of range")
       end.

(** The arithmetic progression [start, start+step, ...] of [n] terms. *)
Fixpoint progression (start step : Z) (n : nat) : list Z :=
  match n with
  | O => []
  | S n' => start :: progression (start + step) step n'
  end.

(** [range(start, stop, step)], with the length computed as CPython
    does; a zero step raises. *)
Definition range (start stop step : Z) : result (list Z) :=
  if step =? 0 then Raise (ValueError "range() arg 3 must not be zero")
  else if 0 <? step then
    Ok (progression start step (Z.to_nat ((stop - start + step - 1) / step)))
  else
    Ok (progression start step (Z.to_nat ((start - stop - step - 1) / (- step)))).

End PyList.

(** ** [utils.split_text_into_chunks] *)

(** The body of the loop: one window, kept when it is not blank. *)
Definition chunk_at (words : list string) (chunk_size i : Z) : list string :=
  let chunk := PyStr.join " " (PyList.slice words i (i + chunk_size)) in
  if PyStr.nonempty (PyStr.strip chunk) then [chunk] else [].

Definition split_text_into_chunks (text : string) (chunk_size overlap : Z)
  : result (list string) :=
  let words := PyStr.split text in
  rbind (PyList.range 0 (Z.of_nat (List.length words)) (chunk_size - overlap))
        (fun offsets =>
           Ok (flat_map (chunk_at words chunk_size) offsets)).

(** The defaults of the signature. *)
Definition default_chunk_size : Z := 500.
Definition default_overlap : Z := 50.

(** ** [utils.detect_sport_type] *)

Inductive sport : Type := cricket | football | basketball | tennis.

(** The dictionary key of a sport. *)
Definition sport_name (s : sport) : string :=
  match s with
  | cricket => "cricket"
  | football => "football"
  | basketball => "basketball"
  | tennis => "tennis"
  end.

Definition sport_eqb (a b : sport) : bool :=
  match a, b with
  | cricket, cricket | football, football
  | basketball, basketball | tennis, tennis => true
  | _, _ => false
  end.

Definition cricket_terms : list string :=
  ["cricket"; "wicket"; "over"; "ball"; "bat"; "bowl"; "run"; "century";
   "fifty"; "innings"; "stumps"; "boundary"; "six"; "four"; "lbw"; "caught";
   "bowled"].

Definition football_terms : list string :=
  ["football"; "soccer"; "goal"; "penalty"; "corner"; "free kick"; "offside";
   "yellow card"; "red card"; "goalkeeper"; "midfielder"; "striker";
   "defender"].

Definition basketball_terms : list string :=
  ["basketball"; "dunk"; "three pointer"; "free throw"; "rebound"; "assist";
   "steal"; "block"; "point guard"; "center"; "forward"].

Definition tennis_terms : list string :=
  ["tennis"; "serve"; "ace"; "set"; "game"; "match point"; "deuce";
   "advantage"; "forehand"; "backhand"; "volley"].

Definition sport_terms (s : sport) : list string :=
  match s with
  | cricket => cricket_terms
  | football => football_terms
  | basketball => basketball_terms
  | tennis => tennis_terms
  end.

(** [sum(1 for term in terms if term in text_lower)]. *)
Fixpoint count_terms (terms : list string) (text_lower : string) : Z :=
  match terms with
  | [] => 0
  | term :: rest =>
      (if PyStr.contains text_lower term then 1 else 0)
      + count_terms rest text_lower
  end.

(** The value stored under a key of the [counts] dictionary. *)
Definition sport_count (text : string) (s : sport) : Z :=
  count_terms (sport_terms s) (PyStr.lower text).

(** The keys of [counts], in insertion order. *)
Definition counts_keys : list sport := [cricket; football; basketball; tennis].

(** [max(xs, key=key)] after the first element [best]: a later element
    replaces the current one only when its key is strictly greater. *)
Fixpoint max_by_from {A : Type} (key : A -> Z) (best : A) (xs : list A) : A :=
  match xs with
  | [] => best
  | x :: xs' => max_by_from key (if key best <? key x then x else best) xs'
  end.

(** [max(counts.values())]. *)
Definition max_count (text : string) : Z :=
  fold_right Z.max (sport_count text cricket)
             (map (sport_count text) [football; basketball; tennis]).

Definition detect_sport_type (text : string) : sport :=
  if 0 <? max_count text
  then max_by_from (sport_count text) cricket [football; basketball; tennis]
  else cricket.

(** ** [utils.generate_mock_chat_response] *)

(** [any(word in query_lower for word in words)]. *)
Definition any_in (query_lower : string) (words : list string) : bool :=
  existsb (PyStr.contains query_lower) words.

(** [re.match(r'\d+[-/]?\d*', word)]: the pattern is anchored at the
    start of the word and only its first atom is mandatory, so it matches
    exactly the words whose first character is a digit. *)
Definition re_match_number (word : string) : bool :=
  match word with
  | EmptyString => false
  | String c _ => PyStr.is_digit c
  end.

Definition placeholder_names : list string :=
  ["Rahul Sharma"; "Virat Patel"; "Rohit Singh"].

Definition mem_string (x : string) (l : list string) : bool :=
  existsb (String.eqb x) l.

(** The keyword groups of the first two rules. *)
Definition player_words : list string :=
  ["player"; "who"; "name"; "star"; "performer"; "captain"; "batsman";
   "bowler"].

Definition score_words : list string :=
  ["score"; "result"; "runs"; "goals"; "points"; "final"].

Section MockChat.

(** [extract_mock_star_players] is a list of regular-expression searches
    padded by [random.sample]; [random.choice] draws from a list.  Both
    are taken as given, so every statement below holds for all of their
    possible outcomes. *)
Variable extract_mock_star_players : string -> list string.
Variable random_choice : list string -> string.

Definition by_sport (s : sport) (c f b other : string) : string :=
  match s with
  | cricket => c
  | football => f
  | basketball => b
  | tennis => other
  end.

Definition generate_mock_chat_response (query : string)
    (relevant_chunks : list string) : string :=
  let context := PyStr.join " " (firstn 2 relevant_chunks) in
  let query_lower := PyStr.lower query in
  let sport_type := detect_sport_type context in
  let extracted_players := extract_mock_star_players context in
  let context_words := PyStr.split context in
  let numbers := filter re_match_number context_words in
  if any_in query_lower player_words then
    if match extracted_players with [] => false | _ => true end
       && negb (forallb (fun name => mem_string name placeholder_names)
                        extracted_players)
    then
      if (List.length extracted_players =? 1)%nat
      then "Key player: " ++ hd "" extracted_players
      else "Star players: " ++ PyStr.join ", " (firstn 2 extracted_players)
    else
      by_sport sport_type
        "Key performers showed excellent batting and bowling skills."
        "Standout players controlled midfield and created chances."
        "Top scorers dominated with precise shooting."
        "Multiple players delivered outstanding performances."
  else if any_in query_lower score_words then
    match numbers with
    | _ :: _ =>
        by_sport sport_type
          ("Match score: " ++ random_choice numbers ++ " runs. Close contest.")
          ("Final score: " ++ random_choice numbers ++ ". Well-contested match.")
          ("Final points: " ++ random_choice numbers ++ ". High-scoring game.")
          ("Final result: " ++ random_choice numbers ++ ". Competitive match.")
    | [] => "Close contest with competitive scoring throughout."
    end
  else if any_in query_lower ["best"; "top"; "highest"; "most"; "outstanding";
                              "stat"; "performance"] then
    match extracted_players, numbers with
    | p :: _, _ :: _ =>
        "Top performer: " ++ p ++ " with " ++ random_choice numbers ++ "."
    | p :: _, [] => "Outstanding performance by " ++ p ++ "."
    | [], _ =>
        by_sport sport_type
          "Excellent batting and bowling statistics recorded."
          "Strong attacking and defensive metrics."
          "High shooting percentages and rebounds."
          "Impressive performance statistics across the board."
    end
  else if any_in query_lower ["summary"; "analysis"; "review"; "highlight";
                              "key"; "important"] then
    by_sport sport_type
      "Well-balanced contest with excellent batting, bowling, and fielding displays."
      "Tactical battle with good attacking play and solid defensive work."
      "Fast-paced game with excellent shooting and strong rebounding."
      "Competitive match with high-quality performances from both teams."
  else if sport_eqb sport_type cricket
          && any_in query_lower ["wicket"; "catch"; "boundary"; "six"; "four";
                                 "over"; "innings"] then
    "Exciting cricket action with boundaries, wickets, and spectacular catches."
  else if sport_eqb sport_type football
          && any_in query_lower ["goal"; "assist"; "penalty"; "corner"; "foul";
                                 "card"] then
    "Dynamic football with strategic plays and decisive moments."
  else if sport_eqb sport_type basketball
          && any_in query_lower ["basket"; "dunk"; "three"; "rebound"; "assist";
                                 "steal"] then
    "High-energy basketball with impressive shooting and athletic plays."
  else if any_in query_lower ["when"; "time"; "period"; "minute"; "first";
                              "second"; "half"] then
    by_sport sport_type
      "Key moments spread across both innings."
      "Important events in both halves."
      "Crucial plays throughout all quarters."
      "Significant moments distributed across the match."
  else if any_in query_lower ["team"; "strategy"; "tactic"; "formation";
                              "captain"; "coach"] then
    by_sport sport_type
      "Well-planned team strategy with effective field placements."
      "Strategic formations and tactical substitutions."
      "Effective team coordination and play execution."
      "Strong team performance with good strategic decisions."
  else if PyStr.startswith query_lower "what" then
    if PyStr.contains query_lower "happened" then
      "Exciting " ++ sport_name sport_type
                  ++ " match with competitive play throughout."
    else if PyStr.contains query_lower "was" then
      "It was a well-contested " ++ sport_name sport_type ++ " encounter."
    else if PyStr.nonempty context then
      "Key match details: " ++ PyStr.take 60 context ++ "..."
    else "Competitive match with good performances."
  else if PyStr.startswith query_lower "how" then
    if PyStr.contains query_lower "did" then
      "Through skillful play and strategic execution."
    else if PyStr.contains query_lower "many" then
      "Multiple " ++ by_sport sport_type "runs" "goals" "points" "points"
                  ++ " scored."
    else "Excellent execution of game plans by both teams."
  else if PyStr.startswith query_lower "why" then
    "Due to superior strategy and individual performances."
  else if PyStr.startswith query_lower "where" then
    "At the home ground with excellent playing conditions."
  else if any_in query_lower ["hello"; "hi"; "hey"] then
    "Hello! I can help with questions about this " ++ sport_name sport_type
                                                   ++ " match."
  else if any_in query_lower ["thank"; "thanks"] then
    "You're welcome! Feel free to ask more about the match."
  else if any_in query_lower ["good"; "great"; "excellent"] then
    "Yes, it was an excellent match with quality performances!"
  else if PyStr.nonempty (PyStr.strip context) then
    "From the match: " ++ PyStr.before_char "." context ++ "..."
  else "Please upload a match PDF to get specific insights.".

End MockChat.

(** ** The generation capability of [utils.py] *)

Definition placeholder_token : string :=
  "hf_XXXXXXXXXXXXXXXXXXXXXXXXXXXXXXXXXXXXXXXX".

(** [not api_token or api_token == 'hf_XXX...']; [None] is an unset
    environment variable. *)
Definition mock_mode (api_token : option string) : bool :=
  match api_token with
  | None => true
  | Some t => negb (PyStr.nonempty t) || String.eqb t placeholder_token
  end.

Definition call_huggingface_api (api_token : option string) (prompt : string)
  : string :=
  if mock_mode api_token
  then "MOCK_RESPONSE: This is a test response. Please configure your HuggingFace API token for real AI responses."
  else "Error: API token appears to be invalid. Please check your token at https://huggingface.co/settings/tokens".

Definition generate_chat_response
    (extract_mock_star_players : string -> list string)
    (random_choice : list string -> string)
    (api_token : option string) (query : string)
    (relevant_chunks : list string) : string :=
  let mock :=
    generate_mock_chat_response extract_mock_star_players random_choice
                                query relevant_chunks in
  if mock_mode api_token then mock
  else
    let context := PyStr.join (String "010" (String "010" EmptyString))
                              (firstn 3 relevant_chunks) in
    let result :=
      call_huggingface_api api_token
        ("Answer this question based on the match data: " ++ query
           ++ String "010" (String "010" EmptyString)
           ++ "Match data: " ++ context) in
    if PyStr.startswith result "Error:"
       || PyStr.startswith result "MOCK_RESPONSE:"
    then mock else result.

(** ** Embeddings, the vector index and retrieval *)

(** The loop over [indices[0]]: an index below [len(chunks)] is looked
    up with [chunks[idx]], the others are passed over. *)
Fixpoint collect_chunks (chunks : list string) (indices : list Z)
  : result (list string) :=
  match indices with
  | [] => Ok []
  | idx :: rest =>
      if idx <? Z.of_nat (List.length chunks) then
        rbind (PyList.index chunks idx)
              (fun c => rbind (collect_chunks chunks rest)
                              (fun cs => Ok (c :: cs)))
      else collect_chunks chunks rest
  end.

Definition default_k : Z := 5.

Section Retrieval.

(** The entries of an array, and the index object of the vector
    library; neither is inspected by the code of this repository. *)
Variable F : Type.
Variable Index : Type.

(** A numpy array, as far as the code looks at it: its shape. *)
Record ndarray : Type := { shape : list nat; data : list F }.

(** [np.array([])]: one axis of length zero. *)
Definition np_empty : ndarray := {| shape := [0%nat]; data := [] |}.

(** What the imported libraries do, each call either returning or
    raising: [model.encode(texts, convert_to_numpy=True)],
    [faiss.IndexFlatL2(d)] followed by [index.add(x)], and the row
    [indices[0]] of [index.search(q, k)]. *)
Record library : Type := {
  encode : list string -> result ndarray;
  index_flat_l2 : nat -> ndarray -> result Index;
  search : Index -> ndarray -> Z -> result (list Z)
}.

Variable lib : library.

(** Lines written by [print]. *)
Definition stdout : Type := list string.

Definition create_embeddings (chunks : list string) : ndarray * stdout :=
  match encode lib chunks with
  | Ok embeddings => (embeddings, [])
  | Raise e => (np_empty, ["Error creating embeddings: " ++ exn_str e])
  end.

(** [embeddings.shape[1]]. *)
Definition shape_1 (a : ndarray) : result nat :=
  match nth_error (shape a) 1 with
  | Some d => Ok d
  | None => Raise (IndexError "tuple index out of range")
  end.

Definition build_faiss_index (embeddings : ndarray) : option Index * stdout :=
  match rbind (shape_1 embeddings)
              (fun dimension => index_flat_l2 lib dimension embeddings) with
  | Ok index => (Some index, [])
  | Raise e => (None, ["Error building FAISS index: " ++ exn_str e])
  end.

Definition get_relevant_chunks (query : string) (faiss_index : option Index)
    (chunks : list string) (k : Z) : list string * stdout :=
  let body :=
    rbind (encode lib [query]) (fun query_embedding =>
    rbind (match faiss_index with
           | Some index => search lib index query_embedding k
           | None => Raise (AttributeError
                              "'NoneType' object has no attribute 'search'")
           end) (fun indices =>
    collect_chunks chunks indices)) in
  match body with
  | Ok relevant_chunks => (relevant_chunks, [])
  | Raise e => ([], ["Error getting relevant chunks: " ++ exn_str e])
  end.

(** ** The session state of [app.py] *)

(** The dictionary [processed_data]; its keys never change. *)
Record processed_data : Type := {
  article : option string;
  star_players : list string;
  faiss_index : option Index;
  chunks : list string;
  embeddings : option ndarray
}.

Definition initial_data : processed_data :=
  {| article := None; star_players := []; faiss_index := None;
     chunks := []; embeddings := None |}.

(** What a request handler can change: the session state, the flashed
    messages (message, category) and the printed lines. *)
Record world : Type := {
  pd : processed_data;
  flashes : list (string * string);
  printed : stdout
}.

(** A handler body: it runs on a world and returns or raises, keeping
    whatever it had changed before raising. *)
Definition M (A : Type) : Type := world -> world * result A.

Definition ret {A : Type} (a : A) : M A := fun w => (w, Ok a).

Definition bind {A B : Type} (m : M A) (k : A -> M B) : M B :=
  fun w => match m w with
           | (w', Ok a) => k a w'
           | (w', Raise e) => (w', Raise e)
           end.

Definition lift {A : Type} (r : result A) : M A := fun w => (w, r).

Definition flash (msg category : string) : M unit :=
  fun w => ({| pd := pd w; flashes := (flashes w ++ [(msg, category)])%list;
               printed := printed w |}, Ok tt).

Definition print_lines {A : Type} (x : A * stdout) : M A :=
  fun w => ({| pd := pd w; flashes := flashes w;
               printed := (printed w ++ snd x)%list |}, Ok (fst x)).

Definition store (d : processed_data) : M unit :=
  fun w => ({| pd := d; flashes := flashes w; printed := printed w |}, Ok tt).

End Retrieval.

Arguments shape {F} _.
Arguments data {F} _.
Arguments np_empty {F}.
Arguments encode {F Index} _ _.
Arguments index_flat_l2 {F Index} _ _ _.
Arguments search {F Index} _ _ _ _.
Arguments article {F Index} _.
Arguments star_players {F Index} _.
Arguments faiss_index {F Index} _.
Arguments chunks {F Index} _.
Arguments embeddings {F Index} _.
Arguments initial_data {F Index}.
Arguments pd {F Index} _.
Arguments flashes {F Index} _.
Arguments printed {F Index} _.
Arguments ret {F Index A} _ _.
Arguments bind {F Index A B} _ _ _.
Arguments lift {F Index A} _ _.
Arguments flash {F Index} _ _ _.
Arguments print_lines {F Index A} _ _.
Arguments store {F Index} _ _.
Arguments create_embeddings {F Index} _ _.
Arguments build_faiss_index {F Index} _ _.
Arguments get_relevant_chunks {F Index} _ _ _ _ _.

Declare Scope handler_scope.
Delimit Scope handler_scope with handler.
Notation "x <- m ;; k" := (bind m (fun x => k))
  (at level 61, m at next level, right associativity) : handler_scope.
Notation "m ;;; k" := (bind m (fun _ => k))
  (at level 61, right associativity) : handler_scope.

(** ** The request handlers of [app.py] *)

Definition MAX_FILE_SIZE : Z := 16 * 1024 * 1024.

(** [s.rsplit(sep, 1)[1]] when [sep] occurs in [s]. *)
Fixpoint after_last (sep : ascii) (s : string) : option string :=
  match s with
  | EmptyString => None
  | String c s' =>
      match after_last sep s' with
      | Some r => Some r
      | None => if Ascii.eqb c sep then Some s' else None
      end
  end.

Definition allowed_file (filename : string) : bool :=
  match after_last "." filename with
  | Some ext => String.eqb (PyStr.lower ext) "pdf"
  | None => false
  end.

(** [utils.extract_text_from_pdf], given what reading the pages gives. *)
Definition extract_text_from_pdf (pages : result string)
  : string * list string :=
  match pages with
  | Ok text => (PyStr.strip text, [])
  | Raise e => ("", ["Error extracting text from PDF: " ++ exn_str e])
  end.

(** An upload as the handler sees it: the form, and the outcome of
    each call that leaves the process. *)
Record upload_request : Type := {
  has_file : bool;
  filename : string;
  file_size : Z;
  save_file : result unit;
  pdf_pages : result string;
  remove_file : result unit
}.

Inductive http_response : Type :=
| Json (key value : string) (status : Z).

Section Handlers.

Variable F : Type.
Variable Index : Type.
Variable lib : library F Index.

(** [utils.generate_article] and [utils.extract_star_players] build
    their text from regular-expression searches and random draws; the
    handlers only pass their results on. *)
Variable generate_article : string -> result string.
Variable extract_star_players : string -> result (list string).
Variable extract_mock_star_players : string -> list string.
Variable random_choice : list string -> string.
Variable api_token : option string.

Local Open Scope handler_scope.

Definition set_article (v : option string) : M F Index unit :=
  fun w => store {| article := v; star_players := star_players (pd w);
                    faiss_index := faiss_index (pd w); chunks := chunks (pd w);
                    embeddings := embeddings (pd w) |} w.

Definition set_star_players (v : list string) : M F Index unit :=
  fun w => store {| article := article (pd w); star_players := v;
                    faiss_index := faiss_index (pd w); chunks := chunks (pd w);
                    embeddings := embeddings (pd w) |} w.

Definition set_faiss_index (v : option Index) : M F Index unit :=
  fun w => store {| article := article (pd w);
                    star_players := star_players (pd w);
                    faiss_index := v; chunks := chunks (pd w);
                    embeddings := embeddings (pd w) |} w.

Definition set_chunks (v : list string) : M F Index unit :=
  fun w => store {| article := article (pd w);
                    star_players := star_players (pd w);
                    faiss_index := faiss_index (pd w); chunks := v;
                    embeddings := embeddings (pd w) |} w.

Definition set_embeddings (v : option (ndarray F)) : M F Index unit :=
  fun w => store {| article := article (pd w);
                    star_players := star_players (pd w);
                    faiss_index := faiss_index (pd w); chunks := chunks (pd w);
                    embeddings := v |} w.

(** The [try] block of [upload_file]. *)
Definition upload_body (req : upload_request) : M F Index unit :=
  if negb (has_file req) then flash "No file selected" "error"
  else if negb (PyStr.nonempty (filename req)) then
    flash "No file selected" "error"
  else if allowed_file (filename req) then
    if MAX_FILE_SIZE <? file_size req then
      flash "File too large. Maximum size is 16MB" "error"
    else
      lift (save_file req) ;;;
      flash "Processing PDF..." "info" ;;;
      text <- print_lines (extract_text_from_pdf (pdf_pages req)) ;;
      if negb (PyStr.nonempty (PyStr.strip text)) then
        flash "Could not extract text from PDF" "error" ;;;
        lift (remove_file req)
      else
        new_chunks <- lift (split_text_into_chunks
                              text default_chunk_size default_overlap) ;;
        new_embeddings <- print_lines (create_embeddings lib new_chunks) ;;
        new_index <- print_lines (build_faiss_index lib new_embeddings) ;;
        new_article <- lift (generate_article text) ;;
        new_players <- lift (extract_star_players text) ;;
        set_article (Some new_article) ;;;
        set_star_players new_players ;;;
        set_faiss_index new_index ;;;
        set_chunks new_chunks ;;;
        set_embeddings (Some new_embeddings) ;;;
        lift (remove_file req) ;;;
        flash "PDF processed successfully!" "success"
  else flash "Invalid file type. Please upload a PDF file." "error".

(** [upload_file]: the body, and the [except] clause around it. *)
Definition upload_file (req : upload_request) (w : world F Index)
  : world F Index :=
  match upload_body req w with
  | (w', Ok _) => w'
  | (w', Raise e) =>
      fst (flash ("Error processing file: " ++ exn_str e) "error" w')
  end.

(** [chat], for a JSON body whose [query] field may be missing. *)
Definition chat (query_field : option string) (w : world F Index)
  : world F Index * http_response :=
  let query := PyStr.strip (match query_field with
                            | Some q => q
                            | None => ""
                            end) in
  if negb (PyStr.nonempty query) then
    (w, Json "error" "Please enter a question" 400)
  else if match faiss_index (pd w) with None => true | Some _ => false end
          || match chunks (pd w) with [] => true | _ => false end then
    (w, Json "error" "Please upload a PDF first" 400)
  else
    let (relevant_chunks, out) :=
      get_relevant_chunks lib query (faiss_index (pd w)) (chunks (pd w))
                          default_k in
    let response :=
      generate_chat_response extract_mock_star_players random_choice
                             api_token query relevant_chunks in
    ({| pd := pd w; flashes := flashes w;
        printed := (printed w ++ out)%list |},
     Json "response" response 200).

(** [clear_data]. *)
Definition clear_data (w : world F Index) : world F Index :=
  fst ((set_article None ;;;
        set_star_players [] ;;;
        set_faiss_index None ;;;
        set_chunks [] ;;;
        set_embeddings None ;;;
        flash "All data cleared successfully!" "success") w).

End Handlers.

Arguments upload_body {F Index} _ _ _ _ _.
Arguments upload_file {F Index} _ _ _ _ _.
Arguments chat {F Index} _ _ _ _ _ _.
Arguments clear_data {F Index} _.

(** ** The rest of the generation capability *)

(** A line feed. *)
Definition nl : string := String "010" EmptyString.

(** [utils.test_huggingface_connection]. *)
Definition test_huggingface_connection (api_token : option string) : bool :=
  if mock_mode api_token then true
  else negb (PyStr.startswith (call_huggingface_api api_token "Test")
                              "Error:").

(** [utils.generate_article]; the rule-based article is built from
    random draws and is taken as given. *)
Definition generate_article_with (generate_mock_article : string -> string)
    (api_token : option string) (text : string) : string :=
  if mock_mode api_token then generate_mock_article text
  else
    let result :=
      call_huggingface_api api_token
        ("Write a professional sports news article based on: "
           ++ PyStr.take 1000 text) in
    if PyStr.startswith result "Error:"
       || PyStr.startswith result "MOCK_RESPONSE:"
    then generate_mock_article text else result.

Definition is_upper (c : ascii) : bool :=
  let n := nat_of_ascii c in ((65 <=? n) && (n <=? 90))%nat.

Definition is_lower (c : ascii) : bool :=
  let n := nat_of_ascii c in ((97 <=? n) && (n <=? 122))%nat.

(** The states of a left-to-right reading of
    [^[A-Z][a-z]+(?:\s+[A-Z][a-z]+)*$]: before a capital, after a
    capital, inside the lowercase letters of a word, inside the white
    space between two words. *)
Inductive shape_state : Type := WantUpper | WantLower | InWord | InSpace.

(** [re.match(r'^[A-Z][a-z]+(?:\s+[A-Z][a-z]+)*$', s)] read from state
    [q]; [$] also matches just before a line feed that ends the string. *)
Fixpoint shape_from (q : shape_state) (s : string) : bool :=
  match s with
  | EmptyString => match q with InWord => true | _ => false end
  | String c s' =>
      match q with
      | WantUpper => is_upper c && shape_from WantLower s'
      | WantLower => is_lower c && shape_from InWord s'
      | InWord =>
          if is_lower c then shape_from InWord s'
          else if PyStr.is_space c then
            (Ascii.eqb c "010" && negb (PyStr.nonempty s'))
            || shape_from InSpace s'
          else false
      | InSpace =>
          if PyStr.is_space c then shape_from InSpace s'
          else is_upper c && shape_from WantLower s'
      end
  end.

Definition name_shape (s : string) : bool := shape_from WantUpper s.

Fixpoint skip_digits (s : string) : string :=
  match s with
  | EmptyString => EmptyString
  | String c s' => if PyStr.is_digit c then skip_digits s' else s
  end.

(** [re.sub(r'^\d+\.?\s*', '', line)]. *)
Definition sub_leading_number (line : string) : string :=
  match line with
  | EmptyString => EmptyString
  | String c _ =>
      if PyStr.is_digit c then
        PyStr.lstrip (match skip_digits line with
                      | String "." rest => rest
                      | rest => rest
                      end)
      else line
  end.

(** [re.sub(r'^\-\s*', '', line)] and [re.sub(r'^\*\s*', '', line)]. *)
Definition sub_leading_char (mark : ascii) (line : string) : string :=
  match line with
  | EmptyString => EmptyString
  | String c rest => if Ascii.eqb c mark then PyStr.lstrip rest else line
  end.

(** [s.split(sep)] for a one-character separator, as the first piece
    and the pieces after it. *)
Fixpoint pieces (sep : ascii) (s : string) : string * list string :=
  match s with
  | EmptyString => (EmptyString, [])
  | String c s' =>
      let (p, ps) := pieces sep s' in
      if Ascii.eqb c sep then (EmptyString, p :: ps) else (String c p, ps)
  end.

Definition split_on (sep : ascii) (s : string) : list string :=
  let (p, ps) := pieces sep s in p :: ps.

(** The body of the loop over the lines of an API answer. *)
Definition clean_line (line : string) : list string :=
  let line := PyStr.strip line in
  if PyStr.nonempty line then
    let cleaned := sub_leading_number line in
    let cleaned := sub_leading_char "-" cleaned in
    let cleaned := sub_leading_char "*" cleaned in
    let cleaned := PyStr.strip cleaned in
    if PyStr.nonempty cleaned
       && (2 <? String.length cleaned)%nat && (String.length cleaned <? 50)%nat
       && name_shape cleaned
    then [cleaned] else []
  else [].

(** [utils.extract_star_players]; the rule-based extraction is a list of
    regular-expression searches padded by random draws and is taken as
    given. *)
Definition extract_star_players_with
    (extract_mock_star_players : string -> list string)
    (api_token : option string) (text : string) : list string :=
  if mock_mode api_token then extract_mock_star_players text
  else
    let prompt :=
      "From the following sports match text, extract exactly 3 star player names. "
        ++ nl
        ++ "        Return only the player names, one per line. Make sure these are actual person names, not team names or other words."
        ++ nl ++ "        " ++ nl
        ++ "        Match text: " ++ PyStr.take 1500 text ++ nl
        ++ "        " ++ nl
        ++ "        Star players:" in
    let result := call_huggingface_api api_token prompt in
    if PyStr.startswith result "Error:"
       || PyStr.startswith result "MOCK_RESPONSE:"
    then extract_mock_star_players text
    else
      let players := flat_map clean_line (split_on "010" (PyStr.strip result)) in
      match players with
      | [] => extract_mock_star_players text
      | _ :: _ => firstn 3 players
      end.

(** ** [utils.is_valid_player_name] *)

Definition avoid_words : list string :=
  ["Match"; "Game"; "Team"; "Player"; "Score"; "Total"; "Final"; "Winner";
   "Stadium"; "Ground"; "Time"; "Date"; "Today"; "Yesterday"; "Tomorrow"].

Definition is_valid_player_name (name : string) (exclude_words : list string)
  : bool :=
  if negb (PyStr.nonempty name)
     || (String.length name <? 2)%nat || (40 <? String.length name)%nat
  then false
  else if existsb (fun part => mem_string part exclude_words)
                  (PyStr.split name)
  then false
  else if negb (name_shape name) then false
  else if mem_string name avoid_words then false
  else true.

(** The set [exclude_words] of [extract_mock_star_players]. *)
Definition exclude_words : list string :=
  ["Match"; "Team"; "Game"; "Score"; "Total"; "Final"; "Winner"; "Player";
   "Captain"; "Coach"; "Stadium"; "Ground"; "Wicket"; "Over"; "Ball";
   "Runs"; "Goals"; "Points"; "Time"; "First"; "Second"; "Third"; "Last";
   "Championship"; "Tournament"; "League"; "Cricket"; "Football";
   "Basketball"; "Tennis"; "Sports"; "Official"; "Referee"; "Umpire";
   "Judge"; "Against"; "Between"; "During"; "After"; "Before"; "Season";
   "Round"; "Quarter"; "Half"; "Innings"; "Session"; "Break"; "Timeout";
   "Penalty"; "Foul"; "India"; "Pakistan"; "Australia"; "England"; "South";
   "West"; "New"; "Zealand"; "Africa"; "World"; "Cup"; "Series"; "Test";
   "ODI"; "T20"; "International"; "Domestic"; "Local"; "Home"; "Away";
   "Venue"; "Date"; "Today"; "Yesterday"; "Tomorrow"; "Morning"; "Evening";
   "Night"; "Day"; "Good"; "Bad"; "Best"; "Worst"; "Great"; "Excellent";
   "Outstanding"; "Average"; "Poor"; "Brilliant"; "Fantastic"; "Amazing";
   "Incredible"].

(** ** The selection at the end of [utils.extract_mock_star_players] *)

(** First pass over the candidates: a full name (one with a space) not
    seen before, compared in lower case, is kept. *)
Definition full_name_step (st : list string * list string) (player : string)
  : list string * list string :=
  let (unique_players, seen) := st in
  let player_lower := PyStr.lower player in
  if negb (mem_string player_lower seen) && PyStr.contains player " "
  then ((unique_players ++ [player])%list, player_lower :: seen)
  else st.

(** Second pass: any name not seen before is kept while fewer than
    three are. *)
Definition single_name_step (st : list string * list string)
    (player : string) : list string * list string :=
  let (unique_players, seen) := st in
  let player_lower := PyStr.lower player in
  if negb (mem_string player_lower seen)
     && (List.length unique_players <? 3)%nat
  then ((unique_players ++ [player])%list, player_lower :: seen)
  else st.

Definition unique_players_of (potential_players : list string) : list string :=
  fst (fold_left single_name_step potential_players
         (fold_left full_name_step potential_players ([], []))).

(** From the candidates found by the searches to the returned names;
    [get_names_by_sport] draws names at random from the pool of a sport
    and is taken as given. *)
Definition select_star_players (get_names_by_sport : sport -> list string)
    (text : string) (potential_players : list string) : list string :=
  let unique_players := unique_players_of potential_players in
  if (2 <=? List.length unique_players)%nat then firstn 3 unique_players
  else if (List.length unique_players =? 1)%nat then
    firstn 3 (unique_players
                ++ firstn 2 (get_names_by_sport (detect_sport_type text)))%list
  else firstn 3 (get_names_by_sport (detect_sport_type text)).

(** A capitalised word: one letter A..Z followed by at least one letter
    a..z and nothing else. *)
Fixpoint all_lower (s : string) : bool :=
  match s with
  | EmptyString => true
  | String c s' => is_lower c && all_lower s'
  end.

Definition cap_word (w : string) : bool :=
  match w with
  | EmptyString => false
  | String c r => is_upper c && PyStr.nonempty r && all_lower r
  end.

(** ** Notions used to state the properties *)

(** [needle] occurs in [hay] as a substring. *)
Definition occurs (needle hay : string) : Prop :=
  exists pre post, hay = pre ++ needle ++ post.

(** No character of [s] is white space. *)
Fixpoint no_space (s : string) : bool :=
  match s with
  | EmptyString => true
  | String c s' => negb (PyStr.is_space c) && no_space s'
  end.

(** A token: a non-empty run of characters without white space. *)
Definition is_token (w : string) : bool := PyStr.nonempty w && no_space w.

(** The number of white-space delimited words of a text. *)
Definition word_count (s : string) : nat := List.length (PyStr.split s).

(** The text with every run of white space replaced by one space. *)
Definition rejoined (text : string) : string :=
  PyStr.join " " (PyStr.split text).

(** The sliding windows as the chunking policy words them: starting
    offsets 0, stride, 2*stride, ... as long as the offset is below the
    token count; at each one the next [size] tokens. *)
Fixpoint window_offsets (fuel start stride count : nat) : list nat :=
  match fuel with
  | O => []
  | S fuel' =>
      if (start <? count)%nat
      then start :: window_offsets fuel' (start + stride) stride count
      else []
  end.

Definition window (words : list string) (start size : nat) : list string :=
  firstn size (skipn start words).

Definition sliding_windows (text : string) (chunk_size overlap : Z)
  : list string :=
  let words := PyStr.split text in
  let count := List.length words in
  flat_map (fun start =>
              match window words start (Z.to_nat chunk_size) with
              | [] => []
              | w => [PyStr.join " " w]
              end)
           (window_offsets count 0 (Z.to_nat (chunk_size - overlap)) count).

(** No document is ready to be queried: the index is absent or there is
    no chunk. *)
Definition not_ready {F Index : Type} (d : processed_data F Index) : Prop :=
  faiss_index d = None \/ chunks d = [].

(** What both passes keep true of the kept names and the seen set. *)
Definition selection_ok (potential : list string)
    (st : list string * list string) : Prop :=
  NoDup (map PyStr.lower (fst st)) /\
  (forall x, In x (snd st) <-> In x (map PyStr.lower (fst st))) /\
  (forall p, In p (fst st) -> In p potential).

(** The position of a sport among the keys of [counts]. *)
Definition sport_rank (s : sport) : nat :=
  match s with
  | cricket => 0
  | football => 1
  | basketball => 2
  | tennis => 3
  end.

(** ** Stand-ins for the imported libraries, for concrete runs *)

Module Doubles.

(** One number per text: its length. *)
Definition encode_length (texts : list string) : ndarray Z :=
  {| shape := [List.length texts; 1%nat];
     data := map (fun t => Z.of_nat (String.length t)) texts |}.

(** [count] indices from [start] upwards, then [-1] up to [k] entries:
    a flat index answers with exactly [k] labels and uses [-1] for the
    ones it does not have. *)
Definition padded_labels (count : nat) (k : Z) : list Z :=
  let found := Nat.min count (Z.to_nat k) in
  (map Z.of_nat (seq 0 found) ++ repeat (-1) (Z.to_nat k - found))%list.

(** A working model and a flat index that remembers what was added. *)
Definition working : library Z (ndarray Z) :=
  {| encode := fun texts => Ok (encode_length texts);
     index_flat_l2 := fun _ x => Ok x;
     search := fun index _ k =>
                 Ok (padded_labels (hd 0%nat (shape index)) k) |}.

(** The same index, behind an embedding model that cannot be run. *)
Definition unavailable_model : library Z (ndarray Z) :=
  {| encode := fun _ => Raise (OtherError "model unavailable");
     index_flat_l2 := index_flat_l2 working;
     search := search working |}.

Definition article_of (text : string) : result string :=
  Ok ("REPORT: " ++ text).

Definition players_of (_ : string) : result (list string) :=
  Ok ["Virat Kohli"; "Rohit Sharma"; "MS Dhoni"].

Definition sampled_players (_ : string) : list string :=
  ["Virat Kohli"; "Rohit Sharma"; "MS Dhoni"].

Definition first_choice (l : list string) : string := hd "" l.

(** A well-formed upload of a PDF whose pages read as [text]. *)
Definition pdf_upload (text : string) : upload_request :=
  {| has_file := true; filename := "match.pdf"; file_size := 2048;
     save_file := Ok tt; pdf_pages := Ok text; remove_file := Ok tt |}.

(** A session before any request, and after one successful upload. *)
Definition fresh : world Z (ndarray Z) :=
  {| pd := initial_data; flashes := []; printed := [] |}.

Definition after_first_upload : world Z (ndarray Z) :=
  upload_file working article_of players_of
              (pdf_upload "India won by 5 wickets") fresh.

End Doubles.

(** ** Proof steps for the handlers *)

Ltac run_handler :=
  unfold upload_file, upload_body, bind, lift, flash, print_lines,
    set_article, set_star_players, set_faiss_index, set_chunks,
    set_embeddings, store, extract_text_from_pdf;
  cbn [fst snd pd flashes printed article star_players faiss_index chunks
       embeddings].

Ltac split_cases :=
  repeat match goal with
         | |- context [if ?b then _ else _] => destruct b eqn:?
         | |- context [match ?x with Ok _ => _ | Raise _ => _ end] =>
             destruct x eqn:?
         | |- context [let (_, _) := ?x in _] => destruct x eqn:?
         end;
  cbn [fst snd pd flashes printed article star_players faiss_index chunks
       embeddings].

(** * Properties *)

(** ** Strings *)

Lemma startswith_occurs_prefix (p s : string) :
  PyStr.startswith s p = true <-> exists post, s = p ++ post.
Proof.
  revert s; induction p as [|a p IH]; intros s; simpl.
  - split; [intros _; now exists s | reflexivity].
  - destruct s as [|b s]; simpl.
    + split; [discriminate | intros [post H]; discriminate].
    + rewrite andb_true_iff, Ascii.eqb_eq, IH. split.
      * intros [-> [post ->]]. now exists post.
      * intros [post H]. injection H as -> ->. split; [reflexivity|now exists post].
Qed.

Lemma contains_occurs (hay needle : string) :
  PyStr.contains hay needle = true <-> occurs needle hay.
Proof.
  unfold occurs. induction hay as [|c hay IH].
  - cbn [PyStr.contains]. rewrite orb_false_r, startswith_occurs_prefix. split.
    + intros [post H]. exists EmptyString, post. exact H.
    + intros [pre [post H]]. destruct pre; [now exists post | discriminate].
  - cbn [PyStr.contains]. rewrite orb_true_iff, startswith_occurs_prefix, IH.
    split.
    + intros [[post H] | [pre [post H]]].
      * exists EmptyString, post. exact H.
      * exists (String c pre), post. simpl. now rewrite H.
    + intros [pre [post H]]. destruct pre as [|c' pre]; simpl in H.
      * left. now exists post.
      * right. injection H as _ H. now exists pre, post.
Qed.

Lemma append_empty_r (s : string) : s ++ "" = s.
Proof. induction s as [|c s IH]; simpl; [reflexivity | now rewrite IH]. Qed.

Lemma words_aux_token_app (w s : string) :
  no_space w = true ->
  PyStr.words_aux (w ++ s) =
  (w ++ fst (PyStr.words_aux s), snd (PyStr.words_aux s)).
Proof.
  induction w as [|c w IH]; simpl; intros H.
  - now destruct (PyStr.words_aux s).
  - apply andb_true_iff in H as [Hc Hw]. rewrite (IH Hw).
    apply negb_true_iff in Hc. now rewrite Hc.
Qed.

Lemma words_aux_token (w : string) :
  no_space w = true -> PyStr.words_aux w = (w, []).
Proof.
  intros H. rewrite <- (append_empty_r w) at 1.
  rewrite (words_aux_token_app w "" H). simpl. now rewrite append_empty_r.
Qed.

Lemma join_cons2 (w w2 : string) (ws : list string) :
  PyStr.join " " (w :: w2 :: ws) = w ++ String " " (PyStr.join " " (w2 :: ws)).
Proof. reflexivity. Qed.

Lemma words_aux_join (w : string) (ws : list string) :
  forallb is_token (w :: ws) = true ->
  PyStr.words_aux (PyStr.join " " (w :: ws)) = (w, ws).
Proof.
  revert w; induction ws as [|w2 ws IH]; intros w H.
  - simpl in H. rewrite andb_true_r in H.
    apply andb_true_iff in H as [_ H]. now apply words_aux_token.
  - cbn [forallb] in H. apply andb_true_iff in H as [Hw H2].
    apply andb_true_iff in Hw as [_ Hw].
    rewrite join_cons2, (words_aux_token_app _ _ Hw).
    cbn [PyStr.words_aux]. rewrite (IH w2 H2).
    cbn [forallb] in H2. apply andb_true_iff in H2 as [H2 _].
    apply andb_true_iff in H2 as [Hn _].
    change (PyStr.is_space " ") with true. cbn [fst snd].
    unfold PyStr.cons_word. rewrite Hn. now rewrite append_empty_r.
Qed.

(** Splitting a text that was joined from tokens gives the tokens back. *)
Lemma split_join_tokens (ws : list string) :
  forallb is_token ws = true -> PyStr.split (PyStr.join " " ws) = ws.
Proof.
  destruct ws as [|w ws]; intros H; [reflexivity|].
  unfold PyStr.split. rewrite (words_aux_join w ws H).
  cbn [forallb] in H. apply andb_true_iff in H as [H _].
  apply andb_true_iff in H as [Hn _].
  unfold PyStr.cons_word. now rewrite Hn.
Qed.

Lemma words_aux_tokens (s : string) :
  no_space (fst (PyStr.words_aux s)) = true /\
  forallb is_token (snd (PyStr.words_aux s)) = true.
Proof.
  induction s as [|c s [IH1 IH2]]; simpl; [now split|].
  destruct (PyStr.words_aux s) as [w ws]; cbn [fst snd] in *.
  destruct (PyStr.is_space c) eqn:Hc; cbn [fst snd].
  - split; [reflexivity|]. unfold PyStr.cons_word.
    destruct (PyStr.nonempty w) eqn:Hn; [|exact IH2].
    cbn [forallb]. unfold is_token at 1. now rewrite Hn, IH1, IH2.
  - split; [|exact IH2]. simpl. now rewrite Hc, IH1.
Qed.

(** Every word that [split] returns is a token. *)
Lemma split_tokens (s : string) : forallb is_token (PyStr.split s) = true.
Proof.
  unfold PyStr.split. destruct (words_aux_tokens s) as [H1 H2].
  destruct (PyStr.words_aux s) as [w ws]; cbn [fst snd] in *.
  unfold PyStr.cons_word. destruct (PyStr.nonempty w) eqn:Hn; [|exact H2].
  cbn [forallb]. unfold is_token at 1. now rewrite Hn, H1, H2.
Qed.

Lemma rstrip_nonspace (c : ascii) (s : string) :
  PyStr.is_space c = false ->
  PyStr.nonempty (PyStr.rstrip (String c s)) = true.
Proof.
  intros Hc. cbn [PyStr.rstrip]. destruct (PyStr.rstrip s); [|reflexivity].
  now rewrite Hc.
Qed.

(** A text joined from tokens is blank exactly when there is no token. *)
Lemma strip_join_tokens (ws : list string) :
  forallb is_token ws = true ->
  PyStr.nonempty (PyStr.strip (PyStr.join " " ws)) =
  match ws with [] => false | _ :: _ => true end.
Proof.
  destruct ws as [|w ws]; intros H; [reflexivity|].
  cbn [forallb] in H. apply andb_true_iff in H as [H _].
  apply andb_true_iff in H as [Hn Hs].
  destruct w as [|c w]; [discriminate|].
  simpl in Hs. apply andb_true_iff in Hs as [Hc _].
  apply negb_true_iff in Hc.
  assert (E : exists t, PyStr.join " " (String c w :: ws) = String c t).
  { unfold PyStr.join. destruct ws; simpl; eauto. }
  destruct E as [t ->]. unfold PyStr.strip. cbn [PyStr.lstrip].
  rewrite Hc. now apply rstrip_nonspace.
Qed.

Lemma forallb_firstn {A : Type} (f : A -> bool) (n : nat) (l : list A) :
  forallb f l = true -> forallb f (firstn n l) = true.
Proof.
  revert n; induction l as [|x l IH]; intros [|n] H; simpl; try reflexivity.
  simpl in H. apply andb_true_iff in H as [Hx Hl]. now rewrite Hx, IH.
Qed.

Lemma forallb_skipn {A : Type} (f : A -> bool) (n : nat) (l : list A) :
  forallb f l = true -> forallb f (skipn n l) = true.
Proof.
  revert n; induction l as [|x l IH]; intros [|n] H; simpl; try reflexivity.
  - exact H.
  - simpl in H. apply andb_true_iff in H as [_ Hl]. now apply IH.
Qed.

Lemma window_tokens (words : list string) (start size : nat) :
  forallb is_token words = true ->
  forallb is_token (window words start size) = true.
Proof. intros H. unfold window. now apply forallb_firstn, forallb_skipn. Qed.

(** ** Slices and ranges *)

Lemma slice_window {A : Type} (l : list A) (i size : Z) :
  0 <= i -> 0 <= size ->
  PyList.slice l i (i + size) =
  firstn (Z.to_nat size) (skipn (Z.to_nat i) l).
Proof.
  intros Hi Hs. unfold PyList.slice, PyList.clamp.
  destruct (Z.ltb_spec i 0); [lia|].
  destruct (Z.ltb_spec (i + size) 0); [lia|].
  set (len := Z.of_nat (List.length l)).
  destruct (Z.le_gt_cases len i) as [Hge|Hlt].
  - rewrite (Z.min_r i len) by lia.
    rewrite !skipn_all2 by lia. now rewrite !firstn_nil.
  - rewrite (Z.min_l i len) by lia.
    destruct (Z.le_gt_cases (i + size) len) as [Hin|Hout].
    + rewrite Z.min_l by lia. f_equal. lia.
    + rewrite Z.min_r by lia.
      rewrite !firstn_all2; try reflexivity; rewrite length_skipn; lia.
Qed.

Lemma progression_offsets (fuel start stride count : nat) :
  (0 < stride)%nat -> (count <= start + fuel)%nat ->
  PyList.progression (Z.of_nat start) (Z.of_nat stride)
    (Z.to_nat ((Z.of_nat count - Z.of_nat start + Z.of_nat stride - 1)
               / Z.of_nat stride)) =
  map Z.of_nat (window_offsets fuel start stride count).
Proof.
  intros Hs. revert start.
  assert (Hstop : forall start, (count <= start)%nat ->
            Z.to_nat ((Z.of_nat count - Z.of_nat start + Z.of_nat stride - 1)
                      / Z.of_nat stride) = 0%nat).
  { intros start Hc.
    assert ((Z.of_nat count - Z.of_nat start + Z.of_nat stride - 1)
            / Z.of_nat stride < 1); [|lia].
    apply Z.div_lt_upper_bound; lia. }
  induction fuel as [|fuel IH]; intros start Hc.
  - rewrite Hstop by lia. reflexivity.
  - cbn [window_offsets]. destruct (Nat.ltb_spec start count) as [Hlt|Hge].
    + replace (Z.of_nat count - Z.of_nat start + Z.of_nat stride - 1)
        with ((Z.of_nat count - Z.of_nat start - 1) + 1 * Z.of_nat stride)
        by lia.
      rewrite Z.div_add by lia.
      assert (Hq : 0 <= (Z.of_nat count - Z.of_nat start - 1) / Z.of_nat stride)
        by (apply Z.div_pos; lia).
      replace (Z.to_nat ((Z.of_nat count - Z.of_nat start - 1)
                         / Z.of_nat stride + 1))
        with (S (Z.to_nat ((Z.of_nat count - Z.of_nat start - 1)
                           / Z.of_nat stride))) by lia.
      cbn [PyList.progression map]. f_equal.
      rewrite <- Nat2Z.inj_add. rewrite <- IH by lia. do 3 f_equal. lia.
    + rewrite Hstop by lia. reflexivity.
Qed.

(** A positive step gives the offsets of the sliding windows. *)
Lemma range_offsets (count : nat) (step : Z) :
  0 < step ->
  PyList.range 0 (Z.of_nat count) step =
  Ok (map Z.of_nat (window_offsets count 0 (Z.to_nat step) count)).
Proof.
  intros Hs. unfold PyList.range.
  destruct (Z.eqb_spec step 0); [lia|].
  destruct (Z.ltb_spec 0 step); [|lia]. f_equal.
  rewrite <- (progression_offsets count 0 (Z.to_nat step) count) by lia.
  rewrite Z2Nat.id by lia. reflexivity.
Qed.

Lemma flat_map_map {A B C : Type} (f : A -> B) (g : B -> list C) (l : list A) :
  flat_map g (map f l) = flat_map (fun a => g (f a)) l.
Proof. induction l as [|a l IH]; simpl; [reflexivity | now rewrite IH]. Qed.

(** One step of the loop is one window of the policy. *)
Lemma chunk_at_window (text : string) (chunk_size : Z) (start : nat) :
  0 <= chunk_size ->
  chunk_at (PyStr.split text) chunk_size (Z.of_nat start) =
  match window (PyStr.split text) start (Z.to_nat chunk_size) with
  | [] => []
  | w => [PyStr.join " " w]
  end.
Proof.
  intros Hc. unfold chunk_at. rewrite slice_window by lia.
  rewrite Nat2Z.id. fold (window (PyStr.split text) start (Z.to_nat chunk_size)).
  rewrite strip_join_tokens by (apply window_tokens, split_tokens).
  now destruct (window (PyStr.split text) start (Z.to_nat chunk_size)).
Qed.

Lemma chunks_are_windows (text : string) (chunk_size overlap : Z) :
  0 <= chunk_size -> overlap < chunk_size ->
  split_text_into_chunks text chunk_size overlap =
  Ok (sliding_windows text chunk_size overlap).
Proof.
  intros Hc Ho. unfold split_text_into_chunks, sliding_windows.
  rewrite range_offsets by lia. cbn [rbind]. f_equal.
  rewrite flat_map_map. apply flat_map_ext. intros start.
  now apply chunk_at_window.
Qed.

Lemma window_offsets_stop (fuel start stride count : nat) :
  (count <= start)%nat -> window_offsets fuel start stride count = [].
Proof.
  intros H. destruct fuel; [reflexivity|]. cbn [window_offsets].
  now destruct (Nat.ltb_spec start count); [lia|].
Qed.

Lemma window_word_count (text : string) (start size : nat) :
  word_count (PyStr.join " " (window (PyStr.split text) start size))
  = List.length (window (PyStr.split text) start size).
Proof.
  unfold word_count.
  now rewrite split_join_tokens by (apply window_tokens, split_tokens).
Qed.

Lemma window_length_le {A : Type} (l : list A) (start size : nat) :
  (List.length (firstn size (skipn start l)) <= size)%nat.
Proof. rewrite length_firstn. lia. Qed.

(** ** The chunker *)

(** C6 (as amended): with [0 <= chunk_size] and [overlap < chunk_size]
    the chunker returns, without raising, exactly the sliding windows of
    [chunk_size] tokens taken at the offsets 0, stride, 2*stride, ...
    below the token count (stride = chunk_size - overlap), each rejoined
    with single spaces, empty windows dropped; every returned chunk has
    at most [chunk_size] words; and a text with at least one word, fewer
    than [chunk_size] words and at most [chunk_size - overlap] words
    gives exactly one chunk, the rejoined text. *)
Theorem chunker_sliding_windows (text : string) (chunk_size overlap : Z) :
  0 <= chunk_size -> overlap < chunk_size ->
  exists chunks : list string,
    split_text_into_chunks text chunk_size overlap = Ok chunks /\
    chunks = sliding_windows text chunk_size overlap /\
    Forall (fun c => Z.of_nat (word_count c) <= chunk_size) chunks /\
    ((1 <= word_count text)%nat ->
     Z.of_nat (word_count text) < chunk_size ->
     Z.of_nat (word_count text) <= chunk_size - overlap ->
     chunks = [rejoined text]).
Proof.
  intros Hc Ho. exists (sliding_windows text chunk_size overlap).
  split; [now apply chunks_are_windows|]. split; [reflexivity|]. split.
  - unfold sliding_windows. apply Forall_flat_map, Forall_forall.
    intros start _.
    destruct (window (PyStr.split text) start (Z.to_nat chunk_size))
      as [|w ws] eqn:E; constructor; [|constructor].
    rewrite <- E, window_word_count.
    pose proof (window_length_le (PyStr.split text) start (Z.to_nat chunk_size)).
    unfold window. lia.
  - unfold word_count, rejoined, sliding_windows. intros H1 H2 H3.
    destruct (PyStr.split text) as [|w ws] eqn:E; [simpl in H1; lia|].
    set (n := List.length (w :: ws)) in *.
    assert (Hn : n = S (List.length ws)) by reflexivity.
    rewrite Hn at 1. cbn [window_offsets].
    destruct (Nat.ltb_spec 0 n); [|lia].
    rewrite window_offsets_stop by lia. cbn [flat_map].
    unfold window. cbn [skipn]. rewrite firstn_all2 by (fold n; lia).
    reflexivity.
Qed.

Lemma chunker_sliding_windows_witness :
  exists chunks : list string,
    split_text_into_chunks
      "Player John scored 50 runs. Player Mary scored 60 runs." 500 50
    = Ok chunks /\
    chunks = ["Player John scored 50 runs. Player Mary scored 60 runs."].
Proof.
  destruct (chunker_sliding_windows
              "Player John scored 50 runs. Player Mary scored 60 runs." 500 50)
    as [chunks [H1 [_ [_ H4]]]]; [lia | lia |].
  exists chunks. split; [exact H1|].
  apply H4; vm_compute; [lia | reflexivity | discriminate].
Defined.

(** C6 (as stated) fails: three words are fewer than a chunk size of
    four, yet with overlap two the text gives two chunks; a negative
    chunk size with a smaller overlap gives a chunk of more words than
    the chunk size; and the empty text gives no chunk at all. *)
Lemma chunker_short_text_not_one_chunk :
  (2 < 4 /\ Z.of_nat (word_count "a b c") < 4 /\
   split_text_into_chunks "a b c" 4 2 = Ok ["a b c"; "c"]) /\
  (-3 < -1 /\ split_text_into_chunks "a b c" (-1) (-3) = Ok ["a b"] /\
   ~ Z.of_nat (word_count "a b") <= -1) /\
  (Z.of_nat (word_count "") < 500 /\
   split_text_into_chunks "" 500 50 = Ok []).
Proof.
  repeat split; try reflexivity; lia.
Qed.

(** C5 (as amended): when [overlap >= chunk_size] the chunker never
    loops; an overlap equal to the chunk size raises the [ValueError]
    of [range] for a zero step, and a larger overlap returns the empty
    list without raising. *)
Theorem chunker_nonpositive_stride (text : string) (chunk_size overlap : Z) :
  chunk_size <= overlap ->
  split_text_into_chunks text chunk_size overlap =
  if overlap =? chunk_size
  then Raise (ValueError "range() arg 3 must not be zero")
  else Ok [].
Proof.
  intros H. unfold split_text_into_chunks, PyList.range.
  destruct (Z.eqb_spec overlap chunk_size) as [->|Hne].
  - now rewrite Z.sub_diag.
  - destruct (Z.eqb_spec (chunk_size - overlap) 0) as [Hz|Hz]; [lia|].
    destruct (Z.ltb_spec 0 (chunk_size - overlap)) as [Hp|Hp]; [lia|].
    set (len := Z.of_nat (List.length (PyStr.split text))).
    assert (Hq : (0 - len - (chunk_size - overlap) - 1)
                 / - (chunk_size - overlap) < 1)
      by (apply Z.div_lt_upper_bound; lia).
    replace (Z.to_nat ((0 - len - (chunk_size - overlap) - 1)
                       / - (chunk_size - overlap))) with 0%nat by lia.
    reflexivity.
Qed.

Lemma chunker_nonpositive_stride_witness :
  split_text_into_chunks "a b" 2 3 = Ok [] /\
  split_text_into_chunks "a b" 2 2 =
  Raise (ValueError "range() arg 3 must not be zero").
Proof.
  split.
  - apply (chunker_nonpositive_stride "a b" 2 3). lia.
  - apply (chunker_nonpositive_stride "a b" 2 2). lia.
Defined.

(** C5 (as stated) fails: with overlap 3 and chunk size 2 the chunker
    raises nothing and returns the empty list. *)
Lemma chunker_overlap_above_size_no_error :
  3 >= 2 /\
  split_text_into_chunks "a b" 2 3 = Ok [] /\
  ~ (exists e, split_text_into_chunks "a b" 2 3 = Raise e).
Proof.
  split; [lia|]. split; [reflexivity|]. intros [e H]. discriminate H.
Qed.

(** ** Domain classification *)

Lemma count_terms_filter (terms : list string) (text_lower : string) :
  count_terms terms text_lower =
  Z.of_nat (List.length (filter (PyStr.contains text_lower) terms)).
Proof.
  induction terms as [|t terms IH]; [reflexivity|].
  cbn [count_terms filter]. rewrite IH.
  destruct (PyStr.contains text_lower t); cbn [List.length]; lia.
Qed.

Lemma count_terms_bounds (terms : list string) (text_lower : string) :
  0 <= count_terms terms text_lower <= Z.of_nat (List.length terms).
Proof.
  induction terms as [|t terms IH]; cbn [count_terms List.length]; [lia|].
  destruct (PyStr.contains text_lower t); lia.
Qed.

Lemma sport_terms_distinct (s : sport) : NoDup (sport_terms s).
Proof.
  assert (E : nodup string_dec (sport_terms s) = sport_terms s)
    by (destruct s; vm_compute; reflexivity).
  rewrite <- E. apply NoDup_nodup.
Qed.

(** C10: the count of a sport is the number of its distinct vocabulary
    terms that occur as substrings of the lowercased text, so each term
    adds at most one however often it occurs; and a term inside a longer
    word is a hit: over in coverage, run in runner. *)
Theorem sport_count_distinct_terms :
  (forall (text : string) (s : sport),
     exists hits : list string,
       NoDup hits /\
       (forall term, In term hits <->
                     In term (sport_terms s) /\
                     occurs term (PyStr.lower text)) /\
       sport_count text s = Z.of_nat (List.length hits) /\
       sport_count text s <= Z.of_nat (List.length (sport_terms s))) /\
  sport_count "over" cricket = 1 /\
  sport_count "over over over" cricket = 1 /\
  sport_count "Coverage" cricket = 1 /\ occurs "over" "coverage" /\
  sport_count "runner" cricket = 1 /\ occurs "run" "runner".
Proof.
  split.
  - intros text s.
    exists (filter (PyStr.contains (PyStr.lower text)) (sport_terms s)).
    split; [apply NoDup_filter, sport_terms_distinct|]. split; [|split].
    + intros term. rewrite filter_In, contains_occurs. reflexivity.
    + apply count_terms_filter.
    + apply count_terms_bounds.
  - repeat split; try reflexivity.
    + now exists "c", "age".
    + now exists "", "ner".
Qed.

Lemma sport_count_nonneg (text : string) (s : sport) : 0 <= sport_count text s.
Proof. apply count_terms_bounds. Qed.

(** The returned sport has the greatest count, and every sport before
    it among the keys has a strictly smaller one. *)
Lemma first_maximum (text : string) (s : sport) :
  sport_count text s <= sport_count text (detect_sport_type text) /\
  ((sport_rank s < sport_rank (detect_sport_type text))%nat ->
   sport_count text s < sport_count text (detect_sport_type text)).
Proof.
  pose proof (sport_count_nonneg text cricket) as Ha.
  pose proof (sport_count_nonneg text football) as Hb.
  pose proof (sport_count_nonneg text basketball) as Hc.
  pose proof (sport_count_nonneg text tennis) as Hd.
  unfold detect_sport_type, max_count. cbn [map fold_right max_by_from].
  match goal with
  | |- context [0 <? ?m] => destruct (Z.ltb_spec 0 m)
  end; [|destruct s; cbn [sport_rank]; lia].
  destruct (Z.ltb_spec (sport_count text cricket) (sport_count text football));
    cbv iota;
    match goal with
    | |- context [?x <? sport_count text basketball] =>
        destruct (Z.ltb_spec x (sport_count text basketball))
    end; cbv iota;
    match goal with
    | |- context [?x <? sport_count text tennis] =>
        destruct (Z.ltb_spec x (sport_count text tennis))
    end; cbv iota; destruct s; cbn [sport_rank]; lia.
Qed.

(** C8 (as amended): classification returns a sport whose count is the
    maximum, and among the sports tied for the maximum the first in the
    order cricket, football, basketball, tennis (every sport before the
    returned one has a strictly smaller count); so it is cricket when
    all counts are zero or when cricket shares the maximum.  The text
    with wicket, over and six three times and goal once is cricket. *)
Theorem detect_sport_first_maximum :
  (forall (text : string) (s : sport),
     sport_count text s <= sport_count text (detect_sport_type text) /\
     ((sport_rank s < sport_rank (detect_sport_type text))%nat ->
      sport_count text s < sport_count text (detect_sport_type text))) /\
  detect_sport_type "wicket over six wicket over six wicket over six goal"
  = cricket.
Proof.
  split; [|reflexivity]. intros text s. apply first_maximum.
Qed.

(** The three readings of the rule that follow from the first maximum. *)
Lemma detect_sport_all_zero (text : string) :
  (forall s, sport_count text s = 0) -> detect_sport_type text = cricket.
Proof.
  intros Hz. destruct (first_maximum text cricket) as [_ Hlt].
  destruct (detect_sport_type text) eqn:E; [reflexivity| | |];
    cbn [sport_rank] in Hlt; rewrite !Hz in Hlt; lia.
Qed.

Lemma detect_sport_strict_maximum (text : string) (s : sport) :
  (forall s', s' <> s -> sport_count text s' < sport_count text s) ->
  detect_sport_type text = s.
Proof.
  intros Hs. destruct (first_maximum text s) as [Hle _].
  destruct (sport_eqb (detect_sport_type text) s) eqn:E.
  - destruct (detect_sport_type text), s; (reflexivity || discriminate).
  - assert (Hne : detect_sport_type text <> s)
      by (intros Heq; rewrite Heq in E; destruct s; discriminate).
    specialize (Hs _ Hne). lia.
Qed.

(** C8 (as stated) fails: goal and dunk tie football with basketball
    at one hit each, cricket has none, and the answer is football. *)
Lemma detect_sport_tie_not_cricket :
  sport_count "goal dunk" cricket = 0 /\
  sport_count "goal dunk" football = 1 /\
  sport_count "goal dunk" basketball = 1 /\
  sport_count "goal dunk" tennis = 0 /\
  detect_sport_type "goal dunk" = football /\
  detect_sport_type "goal dunk" <> cricket.
Proof. repeat split; try reflexivity. discriminate. Qed.

(** ** The fallback composer *)

Lemma any_in_occurs (query_lower : string) (words : list string) :
  any_in query_lower words = true <->
  exists word, In word words /\ occurs word query_lower.
Proof.
  unfold any_in. rewrite existsb_exists.
  split; intros [w [Hin H]]; exists w; (split; [exact Hin|]);
    now apply contains_occurs.
Qed.

Lemma filter_nothing {A : Type} (f : A -> bool) (l : list A) :
  (forall x, In x l -> f x = false) -> filter f l = [].
Proof.
  induction l as [|x l IH]; intros H; [reflexivity|]. cbn [filter].
  rewrite (H x (or_introl eq_refl)). apply IH. intros y Hy. apply H. now right.
Qed.

(** C9 (as amended): whatever the entity extraction and the random
    draw give, a query that contains a score keyword and none of the
    player keywords, asked against a context none of whose words starts
    with a digit, is answered with the fixed sentence. *)
Theorem score_query_without_numbers
    (extract_mock_star_players : string -> list string)
    (random_choice : list string -> string)
    (query : string) (relevant_chunks : list string) :
  any_in (PyStr.lower query) player_words = false ->
  any_in (PyStr.lower query) score_words = true ->
  (forall word,
     In word (PyStr.split (PyStr.join " " (firstn 2 relevant_chunks))) ->
     re_match_number word = false) ->
  generate_mock_chat_response extract_mock_star_players random_choice
                              query relevant_chunks
  = "Close contest with competitive scoring throughout.".
Proof.
  intros Hp Hs Hn. unfold generate_mock_chat_response.
  rewrite Hp, Hs, (filter_nothing _ _ Hn). reflexivity.
Qed.

Lemma score_query_without_numbers_witness :
  generate_mock_chat_response Doubles.sampled_players Doubles.first_choice
    "What was the score?" ["the match was close"]
  = "Close contest with competitive scoring throughout.".
Proof.
  apply (score_query_without_numbers
           Doubles.sampled_players Doubles.first_choice
           "What was the score?" ["the match was close"]).
  - vm_compute. reflexivity.
  - vm_compute. reflexivity.
  - intros word Hin. vm_compute in Hin.
    repeat (destruct Hin as [<-|Hin]; [reflexivity|]). destruct Hin.
Defined.

(** C9 (as stated) fails: the question contains the keyword score and
    the context has no number, but it also contains who, and the player
    rule comes first. *)
Lemma score_query_with_player_word :
  any_in (PyStr.lower "who scored?") score_words = true /\
  filter re_match_number
         (PyStr.split (PyStr.join " " (firstn 2 ["the match was close"])))
  = [] /\
  generate_mock_chat_response Doubles.sampled_players Doubles.first_choice
    "who scored?" ["the match was close"]
  = "Star players: Virat Kohli, Rohit Sharma" /\
  generate_mock_chat_response Doubles.sampled_players Doubles.first_choice
    "who scored?" ["the match was close"]
  <> "Close contest with competitive scoring throughout.".
Proof. repeat split; try reflexivity. vm_compute. discriminate. Qed.

(** The player rule never produces the fixed sentence of the score
    rule, whatever names were extracted. *)
Lemma player_rule_first
    (extract_mock_star_players : string -> list string)
    (random_choice : list string -> string)
    (query : string) (relevant_chunks : list string) :
  any_in (PyStr.lower query) player_words = true ->
  generate_mock_chat_response extract_mock_star_players random_choice
                              query relevant_chunks
  <> "Close contest with competitive scoring throughout.".
Proof.
  intros Hp. unfold generate_mock_chat_response. rewrite Hp.
  destruct (_ && _).
  - destruct (_ =? _)%nat; discriminate.
  - destruct (detect_sport_type _); discriminate.
Qed.

(** ** Retrieval *)

(** An index at or above the number of chunks is passed over. *)
Lemma collect_chunks_skips_high (chunks : list string) (idx : Z)
    (rest : list Z) :
  Z.of_nat (List.length chunks) <= idx ->
  collect_chunks chunks (idx :: rest) = collect_chunks chunks rest.
Proof.
  intros H. cbn [collect_chunks].
  now destruct (Z.ltb_spec idx (Z.of_nat (List.length chunks))); [lia|].
Qed.

(** The index [-1] passes the bound test and reads the last chunk. *)
Lemma collect_chunks_minus_one (chunks : list string) (c : string)
    (rest : list Z) :
  collect_chunks (chunks ++ [c]) (-1 :: rest) =
  rbind (collect_chunks (chunks ++ [c]) rest) (fun cs => Ok (c :: cs)).
Proof.
  cbn [collect_chunks].
  destruct (Z.ltb_spec (-1) (Z.of_nat (List.length (chunks ++ [c]))));
    [|lia].
  unfold PyList.index. rewrite length_app. cbn [List.length].
  destruct (Z.ltb_spec (-1) 0); [|lia].
  replace (-1 + Z.of_nat (List.length chunks + 1))
    with (Z.of_nat (List.length chunks)) by lia.
  destruct (Z.ltb_spec (Z.of_nat (List.length chunks)) 0); [lia|].
  destruct (Z.leb_spec (Z.of_nat (List.length chunks + 1))
                       (Z.of_nat (List.length chunks))); [lia|].
  cbn [orb]. rewrite Nat2Z.id, nth_error_app2 by lia.
  rewrite Nat.sub_diag. reflexivity.
Qed.

(** C2, at the failing input: two chunks and the answer of a flat
    index asked for five neighbours, [0, 1, -1, -1, -1].  Each [-1] is
    below [len(chunks)], so it is looked up and yields the last chunk
    three more times; an index below [-len(chunks)] makes the lookup
    raise and the whole result is replaced by the empty list. *)
Theorem retrieval_negative_index_not_skipped :
  collect_chunks ["a"; "b"] [0; 1; -1; -1; -1]
  = Ok ["a"; "b"; "b"; "b"; "b"] /\
  get_relevant_chunks Doubles.working "who scored?"
    (Some (Doubles.encode_length ["a"; "b"])) ["a"; "b"] default_k
  = (["a"; "b"; "b"; "b"; "b"], []) /\
  collect_chunks ["a"; "b"] [0; 7; 1] = Ok ["a"; "b"] /\
  collect_chunks ["a"; "b"] [0; -3; 1]
  = Raise (IndexError "list index out of range").
Proof. repeat split; reflexivity. Qed.

(** ** Session state *)

Section SessionFacts.

Variable F : Type.
Variable Index : Type.
Variable lib : library F Index.
Variable generate_article : string -> result string.
Variable extract_star_players : string -> result (list string).


(** X26: an upload whose text is blank, or whose PDF cannot be read,
    changes nothing of the stored data. *)
Lemma upload_blank_text_keeps_data (req : upload_request) (w : world F Index) :
  PyStr.nonempty
    (PyStr.strip (fst (extract_text_from_pdf (pdf_pages req)))) = false ->
  pd (upload_file lib generate_article extract_star_players req w) = pd w.
Proof.
  intros H. unfold extract_text_from_pdf in H.
  destruct (pdf_pages req) eqn:E; cbn [fst] in H;
    run_handler; rewrite E; cbn [fst snd]; rewrite H; cbn [negb];
    split_cases; reflexivity.
Qed.

(** X27: an upload whose article generation raises changes nothing of
    the stored data. *)
Lemma upload_generation_failure_keeps_data (req : upload_request)
    (w : world F Index) :
  (forall text, exists e, generate_article text = Raise e) ->
  pd (upload_file lib generate_article extract_star_players req w) = pd w.
Proof.
  intros H. run_handler.
  repeat match goal with
         | |- context [generate_article ?t] =>
             let e := fresh "e" in
             let E := fresh "E" in
             destruct (H t) as [e E]; rewrite E
         end.
  split_cases; reflexivity.
Qed.

(** When the embedding call raises in an otherwise sound upload, the
    five fields are replaced all the same, with no index among them. *)
Lemma upload_embedding_failure_stored (text : string) (w : world F Index)
    (new_chunks : list string) (e : exn) (a : string) (p : list string) :
  PyStr.nonempty (PyStr.strip (PyStr.strip text)) = true ->
  split_text_into_chunks (PyStr.strip text) default_chunk_size default_overlap
  = Ok new_chunks ->
  encode lib new_chunks = Raise e ->
  generate_article (PyStr.strip text) = Ok a ->
  extract_star_players (PyStr.strip text) = Ok p ->
  pd (upload_file lib generate_article extract_star_players
                  (Doubles.pdf_upload text) w)
  = {| article := Some a; star_players := p; faiss_index := None;
       chunks := new_chunks; embeddings := Some np_empty |}.
Proof.
  intros Ht Hc He Ha Hp. run_handler.
  unfold Doubles.pdf_upload; cbn [has_file filename file_size save_file
                                   pdf_pages remove_file negb].
  change (allowed_file "match.pdf") with true.
  change (MAX_FILE_SIZE <? 2048) with false.
  cbn [PyStr.nonempty negb fst snd]. rewrite Ht, Hc. cbn [negb fst snd].
  unfold create_embeddings, build_faiss_index. rewrite He.
  cbn [fst snd shape_1 np_empty shape nth_error rbind]. rewrite Ha, Hp.
  reflexivity.
Qed.

(** The guards of [chat]: a blank query first, then a missing document. *)
Lemma chat_guards
    (extract_mock_star_players : string -> list string)
    (random_choice : list string -> string) (api_token : option string)
    (query_field : option string) (w : world F Index) :
  not_ready (pd w) ->
  chat lib extract_mock_star_players random_choice api_token query_field w
  = (w, Json "error"
          (if PyStr.nonempty
                (PyStr.strip (match query_field with
                              | Some q => q
                              | None => ""
                              end))
           then "Please upload a PDF first"
           else "Please enter a question") 400).
Proof.
  intros H. unfold chat.
  destruct (PyStr.nonempty _); cbn [negb]; [|reflexivity].
  destruct H as [-> | ->]; [reflexivity|].
  now destruct (faiss_index (pd w)).
Qed.

(** C4 (as amended): while the index is absent or there is no chunk,
    [chat] runs no retrieval and returns no answer; it answers with
    status 400 and the error "Please upload a PDF first" for every
    query that is not blank, and "Please enter a question" for a blank
    or missing one, leaving the session as it was. *)
Theorem chat_not_ready
    (extract_mock_star_players : string -> list string)
    (random_choice : list string -> string) (api_token : option string)
    (query_field : option string) (w : world F Index) :
  not_ready (pd w) ->
  chat lib extract_mock_star_players random_choice api_token query_field w
  = (w, Json "error"
          (if PyStr.nonempty
                (PyStr.strip (match query_field with
                              | Some q => q
                              | None => ""
                              end))
           then "Please upload a PDF first"
           else "Please enter a question") 400).
Proof. apply chat_guards. Qed.

End SessionFacts.

Lemma chat_not_ready_witness :
  not_ready (pd Doubles.fresh) /\
  chat Doubles.working Doubles.sampled_players Doubles.first_choice None
       (Some "who scored?") Doubles.fresh
  = (Doubles.fresh, Json "error" "Please upload a PDF first" 400).
Proof.
  assert (H : not_ready (pd Doubles.fresh)) by (left; reflexivity).
  split; [exact H|].
  exact (chat_not_ready Z (ndarray Z) Doubles.working
           Doubles.sampled_players Doubles.first_choice None
           (Some "who scored?") Doubles.fresh H).
Defined.

(** C4 (as stated) fails: a blank query sent before any upload is not
    answered with the missing-document error but with the
    missing-question one. *)
Lemma chat_blank_query_before_upload :
  not_ready (pd Doubles.fresh) /\
  chat Doubles.working Doubles.sampled_players Doubles.first_choice None
       (Some "   ") Doubles.fresh
  = (Doubles.fresh, Json "error" "Please enter a question" 400) /\
  chat Doubles.working Doubles.sampled_players Doubles.first_choice None
       (Some "   ") Doubles.fresh
  <> (Doubles.fresh, Json "error" "Please upload a PDF first" 400).
Proof.
  split; [left; reflexivity|]. split; [reflexivity|].
  vm_compute. discriminate.
Qed.

(** C1, at the failing input: a session holding a complete result of
    one upload receives a second upload while the embedding model
    cannot run.  The handler reports success and the session now holds
    the second article and chunks, an empty embedding array and no
    index: the first document is gone and the second cannot be
    queried. *)
Theorem failed_ingest_overwrites_state :
  faiss_index (pd Doubles.after_first_upload)
  = Some (Doubles.encode_length ["India won by 5 wickets"]) /\
  chunks (pd Doubles.after_first_upload) = ["India won by 5 wickets"] /\
  pd (upload_file Doubles.unavailable_model Doubles.article_of
                  Doubles.players_of
                  (Doubles.pdf_upload "Second match report")
                  Doubles.after_first_upload)
  = {| article := Some "REPORT: Second match report";
       star_players := ["Virat Kohli"; "Rohit Sharma"; "MS Dhoni"];
       faiss_index := None;
       chunks := ["Second match report"];
       embeddings := Some np_empty |} /\
  printed (upload_file Doubles.unavailable_model Doubles.article_of
                       Doubles.players_of
                       (Doubles.pdf_upload "Second match report")
                       Doubles.after_first_upload)
  = ["Error creating embeddings: model unavailable";
     "Error building FAISS index: tuple index out of range"] /\
  last (flashes (upload_file Doubles.unavailable_model Doubles.article_of
                             Doubles.players_of
                             (Doubles.pdf_upload "Second match report")
                             Doubles.after_first_upload)) ("", "")
  = ("PDF processed successfully!", "success") /\
  fst (chat Doubles.working Doubles.sampled_players Doubles.first_choice None
            (Some "who scored?")
            (upload_file Doubles.unavailable_model Doubles.article_of
                         Doubles.players_of
                         (Doubles.pdf_upload "Second match report")
                         Doubles.after_first_upload))
  = upload_file Doubles.unavailable_model Doubles.article_of
                Doubles.players_of
                (Doubles.pdf_upload "Second match report")
                Doubles.after_first_upload /\
  snd (chat Doubles.working Doubles.sampled_players Doubles.first_choice None
            (Some "who scored?")
            (upload_file Doubles.unavailable_model Doubles.article_of
                         Doubles.players_of
                         (Doubles.pdf_upload "Second match report")
                         Doubles.after_first_upload))
  = Json "error" "Please upload a PDF first" 400.
Proof. repeat split; vm_compute; reflexivity. Qed.

(** ** Embedding failures *)

(** C7 (as amended): the embedding operation never signals a failure.
    When the model returns, its array is passed on unchanged, also for
    an empty chunk sequence; when the model raises, a line is printed
    and the empty array [np.array([])] is returned.  Building an index
    from that array raises inside [build_faiss_index], which prints and
    returns no index, and [chat] runs no search while the stored index
    is absent. *)
Theorem embedding_failure_is_empty_array
    (F Index : Type) (lib : library F Index) (texts : list string) :
  (forall a, encode lib texts = Ok a ->
             create_embeddings lib texts = (a, [])) /\
  (forall e, encode lib texts = Raise e ->
             create_embeddings lib texts =
             (np_empty, ["Error creating embeddings: " ++ exn_str e])) /\
  build_faiss_index lib np_empty =
  (None, ["Error building FAISS index: tuple index out of range"]) /\
  (forall extract_mock_star_players random_choice api_token query_field
          (w : world F Index),
     faiss_index (pd w) = None ->
     exists msg,
       chat lib extract_mock_star_players random_choice api_token
            query_field w
       = (w, Json "error" msg 400)).
Proof.
  repeat split.
  - intros a H. unfold create_embeddings. now rewrite H.
  - intros e H. unfold create_embeddings. now rewrite H.
  - intros ex ch tok qf w H. eexists.
    apply chat_guards. now left.
Qed.

(** C7 (as stated) fails: with a model that cannot run the embedding
    operation returns an array of shape [(0,)], not a failure, and the
    upload handler goes on to build an index from it, as the line
    printed by [build_faiss_index] shows. *)
Lemma embedding_failure_reaches_index_build :
  encode Doubles.unavailable_model ["Second match report"]
  = Raise (OtherError "model unavailable") /\
  fst (create_embeddings Doubles.unavailable_model ["Second match report"])
  = {| shape := [0%nat]; data := [] |} /\
  printed (upload_file Doubles.unavailable_model Doubles.article_of
                       Doubles.players_of
                       (Doubles.pdf_upload "Second match report")
                       Doubles.fresh)
  = ["Error creating embeddings: model unavailable";
     "Error building FAISS index: tuple index out of range"].
Proof. repeat split; vm_compute; reflexivity. Qed.

Lemma embedding_failure_is_empty_array_witness :
  create_embeddings Doubles.unavailable_model ["Second match report"]
  = (np_empty, ["Error creating embeddings: model unavailable"]) /\
  build_faiss_index Doubles.unavailable_model np_empty
  = (None, ["Error building FAISS index: tuple index out of range"]).
Proof.
  destruct (embedding_failure_is_empty_array
              Z (ndarray Z) Doubles.unavailable_model
              ["Second match report"]) as [_ [H [H' _]]].
  split; [|exact H'].
  exact (H (OtherError "model unavailable") eq_refl).
Defined.

(** * Further properties of the code *)

(** ** The generation capability *)

Lemma api_answer_is_refused (api_token : option string) (prompt : string) :
  PyStr.startswith (call_huggingface_api api_token prompt) "Error:"
  || PyStr.startswith (call_huggingface_api api_token prompt) "MOCK_RESPONSE:"
  = true.
Proof.
  unfold call_huggingface_api. now destruct (mock_mode api_token).
Qed.

(** X1: whatever the API token is (unset, empty, the placeholder or any
    other value), [generate_chat_response] returns the answer of the
    rule-based composer: the text that [call_huggingface_api] returns
    always starts with "Error:" or "MOCK_RESPONSE:" and is discarded. *)
Theorem chat_response_always_rule_based
    (extract_mock_star_players : string -> list string)
    (random_choice : list string -> string)
    (api_token : option string) (query : string)
    (relevant_chunks : list string) :
  generate_chat_response extract_mock_star_players random_choice api_token
                         query relevant_chunks
  = generate_mock_chat_response extract_mock_star_players random_choice
                                query relevant_chunks.
Proof.
  unfold generate_chat_response. destruct (mock_mode api_token); [reflexivity|].
  now rewrite api_answer_is_refused.
Qed.

(** ** Retrieval *)

Lemma index_in {A : Type} (l : list A) (i : Z) (x : A) :
  PyList.index l i = Ok x -> In x l.
Proof.
  unfold PyList.index. destruct (_ || _); [discriminate|].
  destruct (nth_error l _) eqn:E; [|discriminate].
  intros H. injection H as <-. eapply nth_error_In, E.
Qed.

Lemma collect_chunks_sound (chunks : list string) (indices : list Z)
    (found : list string) :
  collect_chunks chunks indices = Ok found ->
  (forall c, In c found -> In c chunks) /\
  (List.length found <= List.length indices)%nat.
Proof.
  revert found; induction indices as [|idx rest IH]; intros found H.
  - injection H as <-. split; [intros c []|reflexivity].
  - cbn [collect_chunks] in H.
    destruct (idx <? Z.of_nat (List.length chunks)).
    + destruct (PyList.index chunks idx) as [c|e] eqn:Ei; [|discriminate].
      destruct (collect_chunks chunks rest) as [cs|e]; [|discriminate].
      cbn [rbind] in H. injection H as <-.
      destruct (IH cs eq_refl) as [Hin Hlen]. split.
      * intros c' [<-|Hc]; [eapply index_in, Ei | now apply Hin].
      * cbn [List.length]. lia.
    + destruct (IH found H) as [Hin Hlen]. split; [exact Hin|].
      cbn [List.length]. lia.
Qed.

Section RetrievalFacts.

Variable F : Type.
Variable Index : Type.
Variable lib : library F Index.

(** X2: whatever the model and the index answer, every text that
    [get_relevant_chunks] returns is one of the given chunks; nothing
    is made up, and the call itself never raises. *)
Theorem retrieval_returns_given_chunks (query : string)
    (index : option Index) (chunks : list string) (k : Z) (c : string) :
  In c (fst (get_relevant_chunks lib query index chunks k)) -> In c chunks.
Proof.
  unfold get_relevant_chunks.
  destruct (encode lib [query]) as [qe|e]; cbn [rbind fst]; [|intros []].
  destruct index as [i|]; cbn [rbind fst]; [|intros []].
  destruct (search lib i qe k) as [indices|e]; cbn [rbind fst]; [|intros []].
  destruct (collect_chunks chunks indices) as [found|e] eqn:E;
    cbn [fst]; [|intros []].
  intros H. now apply (proj1 (collect_chunks_sound _ _ _ E)).
Qed.

(** X3: without an index [get_relevant_chunks] raises nothing: it
    prints one line and returns the empty list, for every query and
    every chunk list. *)
Theorem retrieval_without_index_is_empty (query : string)
    (chunks : list string) (k : Z) :
  exists line,
    get_relevant_chunks lib query None chunks k = ([], [line]).
Proof.
  unfold get_relevant_chunks.
  destruct (encode lib [query]) as [qe|e]; cbn [rbind]; eexists; reflexivity.
Qed.

(** X4: when the model and the index answer and every returned index
    lies within [0, len(chunks)), the result is the chunks at those
    positions, in the order of the index's answer, and nothing is
    printed. *)
Theorem retrieval_in_range (query : string) (index : Index)
    (chunks : list string) (k : Z) (qe : ndarray F) (indices : list Z) :
  encode lib [query] = Ok qe ->
  search lib index qe k = Ok indices ->
  Forall (fun i => 0 <= i < Z.of_nat (List.length chunks)) indices ->
  get_relevant_chunks lib query (Some index) chunks k
  = (map (fun i => nth (Z.to_nat i) chunks "") indices, []).
Proof.
  intros He Hs Hr. unfold get_relevant_chunks. rewrite He. cbn [rbind].
  rewrite Hs. cbn [rbind].
  assert (E : collect_chunks chunks indices
              = Ok (map (fun i => nth (Z.to_nat i) chunks "") indices)).
  { clear Hs. induction Hr as [|i rest [Hlo Hhi] _ IH]; [reflexivity|].
    cbn [collect_chunks map].
    destruct (Z.ltb_spec i (Z.of_nat (List.length chunks))); [|lia].
    assert (Hn : (i <? 0) = false) by (apply Z.ltb_ge; lia).
    assert (Hb : (Z.of_nat (List.length chunks) <=? i) = false)
      by (apply Z.leb_gt; lia).
    unfold PyList.index. cbv zeta. rewrite Hn. cbv iota. rewrite Hn, Hb.
    cbn [orb]. rewrite (nth_error_nth' chunks "") by lia.
    cbn [rbind]. now rewrite IH. }
  now rewrite E.
Qed.

(** X5: [build_faiss_index] returns an index only when the array has a
    second axis and the library built the index with the length of that
    axis as dimension; in that case nothing is printed.  An array with
    fewer than two axes gives no index and one printed line. *)
Theorem index_built_from_second_axis (a : ndarray F) :
  (forall i, fst (build_faiss_index lib a) = Some i ->
             exists d, nth_error (shape a) 1 = Some d /\
                       index_flat_l2 lib d a = Ok i /\
                       snd (build_faiss_index lib a) = []) /\
  ((List.length (shape a) < 2)%nat ->
   build_faiss_index lib a
   = (None, ["Error building FAISS index: tuple index out of range"])).
Proof.
  unfold build_faiss_index, shape_1. split.
  - intros i. destruct (nth_error (shape a) 1) as [d|]; cbn [rbind].
    + destruct (index_flat_l2 lib d a) as [j|e] eqn:E; cbn [fst snd];
        [|discriminate].
      intros H. injection H as <-. exists d. repeat split. exact E.
    + discriminate.
  - intros H. destruct (nth_error (shape a) 1) eqn:E; [|reflexivity].
    assert (1 < List.length (shape a))%nat
      by (apply nth_error_Some; rewrite E; discriminate).
    lia.
Qed.

End RetrievalFacts.

Lemma retrieval_returns_given_chunks_witness :
  In "b" ["a"; "b"].
Proof.
  apply (retrieval_returns_given_chunks Z (ndarray Z) Doubles.working
           "who scored?" (Some (Doubles.encode_length ["a"; "b"]))
           ["a"; "b"] default_k "b").
  vm_compute. right. left. reflexivity.
Defined.

Lemma retrieval_in_range_witness :
  get_relevant_chunks Doubles.working "who scored?"
    (Some (Doubles.encode_length ["a"; "b"; "c"])) ["a"; "b"; "c"] 2
  = (["a"; "b"], []).
Proof.
  apply (retrieval_in_range Z (ndarray Z) Doubles.working "who scored?"
           (Doubles.encode_length ["a"; "b"; "c"]) ["a"; "b"; "c"] 2
           (Doubles.encode_length ["who scored?"]) [0; 1]).
  - reflexivity.
  - reflexivity.
  - repeat constructor; cbn; lia.
Defined.

(** ** Blank texts *)

Lemma split_cons_space (c : ascii) (s : string) :
  PyStr.is_space c = true -> PyStr.split (String c s) = PyStr.split s.
Proof.
  intros H. unfold PyStr.split. cbn [PyStr.words_aux].
  destruct (PyStr.words_aux s) as [w ws]. now rewrite H.
Qed.

Lemma split_cons_nonspace (c : ascii) (s : string) :
  PyStr.is_space c = false ->
  exists w ws, PyStr.split (String c s) = w :: ws.
Proof.
  intros H. unfold PyStr.split. cbn [PyStr.words_aux].
  destruct (PyStr.words_aux s) as [w ws]. rewrite H.
  now exists (String c w), ws.
Qed.

Lemma split_nil_lstrip (s : string) :
  PyStr.split s = [] <-> PyStr.lstrip s = "".
Proof.
  induction s as [|c s IH]; [now split|]. cbn [PyStr.lstrip].
  destruct (PyStr.is_space c) eqn:Hc.
  - now rewrite split_cons_space.
  - destruct (split_cons_nonspace c s Hc) as [w [ws ->]]. now split.
Qed.

Lemma lstrip_head (s : string) :
  PyStr.lstrip s = "" \/
  exists c r, PyStr.lstrip s = String c r /\ PyStr.is_space c = false.
Proof.
  induction s as [|c s IH]; [now left|]. cbn [PyStr.lstrip].
  destruct (PyStr.is_space c) eqn:Hc; [exact IH|]. right. now exists c, s.
Qed.

Lemma rstrip_head (c : ascii) (s : string) :
  PyStr.is_space c = false ->
  exists r, PyStr.rstrip (String c s) = String c r.
Proof.
  intros Hc. cbn [PyStr.rstrip]. destruct (PyStr.rstrip s) as [|d r].
  - rewrite Hc. now exists "".
  - now exists (String d r).
Qed.

(** A text is blank for [strip] exactly when [split] finds no word. *)
Lemma blank_iff_no_word (s : string) :
  PyStr.nonempty (PyStr.strip s) = false <-> PyStr.split s = [].
Proof.
  rewrite split_nil_lstrip. unfold PyStr.strip.
  destruct (lstrip_head s) as [E | [c [r [E Hc]]]]; rewrite E.
  - now split.
  - destruct (rstrip_head c r Hc) as [r' ->]. now split.
Qed.

Lemma rstrip_idempotent (s : string) :
  PyStr.rstrip (PyStr.rstrip s) = PyStr.rstrip s.
Proof.
  induction s as [|c s IH]; [reflexivity|]. cbn [PyStr.rstrip].
  destruct (PyStr.rstrip s) as [|d r] eqn:E.
  - destruct (PyStr.is_space c) eqn:Hc; [reflexivity|].
    cbn [PyStr.rstrip]. now rewrite Hc.
  - cbn [PyStr.rstrip] in *. now rewrite IH.
Qed.

Lemma strip_idempotent (s : string) :
  PyStr.strip (PyStr.strip s) = PyStr.strip s.
Proof.
  unfold PyStr.strip.
  destruct (lstrip_head s) as [E | [c [r [E Hc]]]]; rewrite E.
  - reflexivity.
  - destruct (rstrip_head c r Hc) as [r' E'].
    rewrite E'. cbn [PyStr.lstrip]. rewrite Hc, <- E'.
    apply rstrip_idempotent.
Qed.

Lemma windows_of_words_nonempty (text : string) :
  PyStr.split text <> [] ->
  sliding_windows text default_chunk_size default_overlap <> [].
Proof.
  unfold sliding_windows. destruct (PyStr.split text) as [|w ws]; [easy|].
  intros _. cbn [List.length window_offsets Nat.ltb Nat.leb flat_map].
  unfold window. cbn [skipn].
  change (Z.to_nat default_chunk_size) with 500%nat.
  cbn [firstn]. discriminate.
Qed.

(** ** Request handlers *)

Section HandlerFacts.

Variable F : Type.
Variable Index : Type.
Variable lib : library F Index.
Variable generate_article : string -> result string.
Variable extract_star_players : string -> result (list string).
Variable extract_mock_star_players : string -> list string.
Variable random_choice : list string -> string.
Variable api_token : option string.

(** X6: [chat] only reads the session: for every request body and every
    session, the stored data and the flashed messages are the same
    after the call as before. *)
Theorem chat_reads_only (query_field : option string) (w : world F Index) :
  pd (fst (chat lib extract_mock_star_players random_choice api_token
                query_field w)) = pd w /\
  flashes (fst (chat lib extract_mock_star_players random_choice api_token
                     query_field w)) = flashes w.
Proof.
  unfold chat. destruct (negb _); [now split|].
  destruct (_ || _); [now split|].
  destruct (get_relevant_chunks _ _ _ _ _). now split.
Qed.

(** X7: with an index and at least one chunk stored, a query that is
    not blank is answered with status 200, and the answer is what the
    rule-based composer makes of the trimmed query and of the chunks
    that retrieval returned for it with k = 5. *)
Theorem chat_answers_when_ready (query : string) (w : world F Index)
    (index : Index) :
  faiss_index (pd w) = Some index ->
  chunks (pd w) <> [] ->
  PyStr.nonempty (PyStr.strip query) = true ->
  snd (chat lib extract_mock_star_players random_choice api_token
            (Some query) w)
  = Json "response"
         (generate_mock_chat_response extract_mock_star_players random_choice
            (PyStr.strip query)
            (fst (get_relevant_chunks lib (PyStr.strip query) (Some index)
                                      (chunks (pd w)) 5)))
         200.
Proof.
  intros Hi Hc Hq. unfold chat. rewrite Hq, Hi. cbn [negb orb].
  destruct (chunks (pd w)) as [|c cs] eqn:E; [easy|].
  unfold default_k.
  destruct (get_relevant_chunks lib (PyStr.strip query) (Some index)
                                (c :: cs) 5) as [found out].
  cbn [fst snd]. unfold generate_chat_response.
  destruct (mock_mode api_token); [reflexivity|].
  now rewrite api_answer_is_refused.
Qed.

(** X8: [clear_data] empties the session whatever it held, clearing
    twice is the same as clearing once, and after it every query that
    is not blank is refused with "Please upload a PDF first". *)
Theorem clear_data_resets (w : world F Index) (query : string) :
  pd (clear_data w) = initial_data /\
  pd (clear_data (clear_data w)) = pd (clear_data w) /\
  printed (clear_data w) = printed w /\
  (PyStr.nonempty (PyStr.strip query) = true ->
   snd (chat lib extract_mock_star_players random_choice api_token
             (Some query) (clear_data w))
   = Json "error" "Please upload a PDF first" 400).
Proof.
  repeat split. intros Hq. unfold chat. rewrite Hq. reflexivity.
Qed.

(** X9: an upload that fails a check of the form (no file part, empty
    file name, extension other than pdf, or more than 16 MB) changes
    neither the stored data nor the printed lines and flashes exactly
    one message, of category error. *)
Theorem upload_rejected_form (req : upload_request) (w : world F Index) :
  has_file req = false \/ filename req = "" \/
  allowed_file (filename req) = false \/ MAX_FILE_SIZE < file_size req ->
  exists msg,
    upload_file lib generate_article extract_star_players req w
    = {| pd := pd w; flashes := (flashes w ++ [(msg, "error")])%list;
         printed := printed w |}.
Proof.
  intros H. run_handler.
  destruct (has_file req); cbn [negb]; [|eexists; reflexivity].
  destruct (filename req) as [|c name] eqn:En; cbn [PyStr.nonempty negb];
    [eexists; reflexivity|].
  destruct (allowed_file (String c name)) eqn:Ea; [|eexists; reflexivity].
  destruct (Z.ltb_spec MAX_FILE_SIZE (file_size req));
    [eexists; reflexivity|].
  destruct H as [H | [H | [H | H]]]; (discriminate || lia).
Qed.

(** X10: a well-formed upload of a PDF whose text is not blank, for
    which the model, the index build and both generation steps succeed,
    replaces the session by the new article, players, index, embeddings
    and the sliding-window chunks of the trimmed text; there is at
    least one chunk, the last flash is the success message, and a query
    that is not blank is then answered with status 200. *)
Theorem upload_then_chat (req : upload_request) (w : world F Index)
    (text : string) (emb : ndarray F) (d : nat) (index : Index)
    (a : string) (p : list string) (query : string) :
  has_file req = true ->
  PyStr.nonempty (filename req) = true ->
  allowed_file (filename req) = true ->
  file_size req <= MAX_FILE_SIZE ->
  save_file req = Ok tt -> pdf_pages req = Ok text ->
  remove_file req = Ok tt ->
  PyStr.nonempty (PyStr.strip text) = true ->
  encode lib (sliding_windows (PyStr.strip text)
                              default_chunk_size default_overlap) = Ok emb ->
  nth_error (shape emb) 1 = Some d ->
  index_flat_l2 lib d emb = Ok index ->
  generate_article (PyStr.strip text) = Ok a ->
  extract_star_players (PyStr.strip text) = Ok p ->
  PyStr.nonempty (PyStr.strip query) = true ->
  upload_file lib generate_article extract_star_players req w
  = {| pd := {| article := Some a; star_players := p;
                faiss_index := Some index;
                chunks := sliding_windows (PyStr.strip text)
                                          default_chunk_size default_overlap;
                embeddings := Some emb |};
       flashes := (flashes w ++ [("Processing PDF...", "info");
                                 ("PDF processed successfully!", "success")])
                  %list;
       printed := printed w |} /\
  sliding_windows (PyStr.strip text) default_chunk_size default_overlap
  <> [] /\
  exists answer,
    snd (chat lib extract_mock_star_players random_choice api_token
              (Some query)
              (upload_file lib generate_article extract_star_players req w))
    = Json "response" answer 200.
Proof.
  intros Hf Hn Ha Hs Hsave Hp Hr Ht He Hd Hi Hga Hep Hq.
  assert (Hw : sliding_windows (PyStr.strip text)
                 default_chunk_size default_overlap <> []).
  { apply windows_of_words_nonempty. intros E.
    apply blank_iff_no_word in E. rewrite strip_idempotent in E. congruence. }
  assert (Hu : upload_file lib generate_article extract_star_players req w
               = {| pd := {| article := Some a; star_players := p;
                             faiss_index := Some index;
                             chunks := sliding_windows (PyStr.strip text)
                                         default_chunk_size default_overlap;
                             embeddings := Some emb |};
                    flashes := (flashes w
                                ++ [("Processing PDF...", "info");
                                    ("PDF processed successfully!",
                                     "success")])%list;
                    printed := printed w |}).
  { run_handler. rewrite Hf, Hn, Ha. cbn [negb].
    destruct (Z.ltb_spec MAX_FILE_SIZE (file_size req)); [lia|].
    rewrite Hsave, Hp. cbn [fst snd].
    rewrite strip_idempotent, Ht. cbn [negb].
    rewrite chunks_are_windows by (unfold default_chunk_size, default_overlap;
                                   lia).
    unfold create_embeddings, build_faiss_index, shape_1.
    rewrite He. cbn [fst snd]. rewrite Hd. cbn [rbind]. rewrite Hi.
    cbn [fst snd]. rewrite Hga, Hep, Hr. cbn [fst snd].
    cbn [pd flashes printed]. rewrite !app_nil_r, <- app_assoc.
    reflexivity. }
  split; [exact Hu|]. split; [exact Hw|].
  rewrite Hu. unfold chat. rewrite Hq. cbn [negb pd faiss_index chunks orb].
  destruct (sliding_windows _ _ _) as [|c cs]; [easy|].
  destruct (get_relevant_chunks _ _ _ _ _). cbn [snd]. eexists. reflexivity.
Qed.

End HandlerFacts.

Lemma chat_answers_when_ready_witness :
  snd (chat Doubles.working Doubles.sampled_players Doubles.first_choice None
            (Some "  What was the score?  ") Doubles.after_first_upload)
  = Json "response"
         (generate_mock_chat_response Doubles.sampled_players
            Doubles.first_choice "What was the score?"
            ["India won by 5 wickets"; "India won by 5 wickets";
             "India won by 5 wickets"; "India won by 5 wickets";
             "India won by 5 wickets"])
         200.
Proof.
  exact (chat_answers_when_ready Z (ndarray Z) Doubles.working
           Doubles.sampled_players Doubles.first_choice None
           "  What was the score?  " Doubles.after_first_upload
           (Doubles.encode_length ["India won by 5 wickets"])
           eq_refl ltac:(discriminate) eq_refl).
Defined.

Lemma upload_rejected_form_witness :
  exists msg,
    upload_file Doubles.working Doubles.article_of Doubles.players_of
      {| has_file := true; filename := "notes.txt"; file_size := 10;
         save_file := Ok tt; pdf_pages := Ok "text"; remove_file := Ok tt |}
      Doubles.after_first_upload
    = {| pd := pd Doubles.after_first_upload;
         flashes := (flashes Doubles.after_first_upload
                     ++ [(msg, "error")])%list;
         printed := printed Doubles.after_first_upload |}.
Proof.
  apply (upload_rejected_form Z (ndarray Z) Doubles.working
           Doubles.article_of Doubles.players_of).
  right. right. left. reflexivity.
Defined.

Lemma upload_then_chat_witness :
  chunks (pd (upload_file Doubles.working Doubles.article_of
                          Doubles.players_of
                          (Doubles.pdf_upload "  India won by 5 wickets ")
                          Doubles.fresh))
  = ["India won by 5 wickets"].
Proof.
  destruct (upload_then_chat Z (ndarray Z) Doubles.working
              Doubles.article_of Doubles.players_of
              Doubles.sampled_players Doubles.first_choice None
              (Doubles.pdf_upload "  India won by 5 wickets ") Doubles.fresh
              "  India won by 5 wickets "
              (Doubles.encode_length ["India won by 5 wickets"]) 1%nat
              (Doubles.encode_length ["India won by 5 wickets"])
              "REPORT: India won by 5 wickets"
              ["Virat Kohli"; "Rohit Sharma"; "MS Dhoni"] "who scored?"
              eq_refl eq_refl eq_refl ltac:(vm_compute; discriminate)
              eq_refl eq_refl eq_refl eq_refl eq_refl eq_refl eq_refl
              eq_refl eq_refl eq_refl)
    as [H _].
  rewrite H. reflexivity.
Defined.

(** ** More on the chunker *)

(** X11: a text without any word (empty or white space only) gives the
    empty chunk list for every pair of parameters with
    [chunk_size <> overlap]. *)
Theorem chunker_blank_text (text : string) (chunk_size overlap : Z) :
  PyStr.nonempty (PyStr.strip text) = false ->
  chunk_size <> overlap ->
  split_text_into_chunks text chunk_size overlap = Ok [].
Proof.
  intros Hb Hne. apply blank_iff_no_word in Hb.
  unfold split_text_into_chunks, PyList.range. rewrite Hb.
  cbn [List.length Z.of_nat].
  destruct (Z.eqb_spec (chunk_size - overlap) 0) as [Hz|Hz]; [lia|].
  destruct (Z.ltb_spec 0 (chunk_size - overlap)) as [Hp|Hp].
  - replace (Z.to_nat ((0 - 0 + (chunk_size - overlap) - 1)
                       / (chunk_size - overlap))) with 0%nat; [reflexivity|].
    rewrite Z.div_small by lia. reflexivity.
  - replace (Z.to_nat ((0 - 0 - (chunk_size - overlap) - 1)
                       / - (chunk_size - overlap))) with 0%nat; [reflexivity|].
    rewrite Z.div_small by lia. reflexivity.
Qed.

Lemma chunker_blank_text_witness :
  split_text_into_chunks "   " 500 50 = Ok [].
Proof.
  apply (chunker_blank_text "   " 500 50); [reflexivity | lia].
Defined.

Lemma window_offsets_multiple (k fuel start stride count : nat) :
  (k < fuel)%nat -> (start + k * stride < count)%nat ->
  In (start + k * stride)%nat (window_offsets fuel start stride count).
Proof.
  revert fuel start. induction k as [|k IH]; intros fuel start Hf Hc.
  - destruct fuel; [lia|]. cbn [window_offsets].
    destruct (Nat.ltb_spec start count); [|lia]. left. lia.
  - destruct fuel; [lia|]. cbn [window_offsets].
    destruct (Nat.ltb_spec start count); [|lia]. right.
    replace (start + S k * stride)%nat with (start + stride + k * stride)%nat
      by lia.
    apply IH; lia.
Qed.

Lemma window_offsets_below (fuel start stride count o : nat) :
  In o (window_offsets fuel start stride count) -> (o < count)%nat.
Proof.
  revert start. induction fuel as [|fuel IH]; intros start; [intros []|].
  cbn [window_offsets].
  destruct (Nat.ltb_spec start count) as [Hlt|Hge]; [|intros []].
  intros [<-|Hin]; [assumption | eapply IH, Hin].
Qed.

(** X12: with [0 <= overlap < chunk_size] no word is lost: every word
    of the text is a word of at least one returned chunk. *)
Theorem chunker_covers_every_word (text : string) (chunk_size overlap : Z)
    (word : string) :
  0 <= overlap -> overlap < chunk_size ->
  In word (PyStr.split text) ->
  exists chunks chunk,
    split_text_into_chunks text chunk_size overlap = Ok chunks /\
    In chunk chunks /\ In word (PyStr.split chunk).
Proof.
  intros Ho Hc Hin.
  exists (sliding_windows text chunk_size overlap).
  rewrite chunks_are_windows by lia.
  apply In_nth_error in Hin as [p Hp].
  set (stride := Z.to_nat (chunk_size - overlap)).
  set (size := Z.to_nat chunk_size).
  assert (Hs : (0 < stride <= size)%nat) by (unfold stride, size; lia).
  assert (Hlt : (p < List.length (PyStr.split text))%nat)
    by (apply nth_error_Some; rewrite Hp; discriminate).
  set (k := (p / stride)%nat).
  assert (Hk : (k * stride <= p < k * stride + stride)%nat).
  { unfold k. pose proof (Nat.div_mod_eq p stride) as E.
    pose proof (Nat.mod_upper_bound p stride ltac:(lia)). nia. }
  assert (Hw : nth_error (window (PyStr.split text) (k * stride) size)
                         (p - k * stride) = Some word).
  { unfold window. rewrite nth_error_firstn.
    destruct (Nat.ltb_spec (p - k * stride) size); [|lia].
    rewrite nth_error_skipn.
    now replace (k * stride + (p - k * stride))%nat with p by lia. }
  exists (PyStr.join " " (window (PyStr.split text) (k * stride) size)).
  split; [reflexivity|]. split.
  - unfold sliding_windows. apply in_flat_map. exists (k * stride)%nat.
    fold stride size. split.
    + apply (window_offsets_multiple k _ 0 stride); [|lia].
      assert (k <= p)%nat by (unfold k; apply Nat.Div0.div_le_upper_bound; nia).
      lia.
    + destruct (window (PyStr.split text) (k * stride) size) eqn:E;
        [destruct (p - k * stride)%nat; discriminate | now left].
  - rewrite split_join_tokens by (apply window_tokens, split_tokens).
    eapply nth_error_In, Hw.
Qed.

Lemma chunker_covers_every_word_witness :
  exists chunks chunk,
    split_text_into_chunks "a b c d e" 3 1 = Ok chunks /\
    In chunk chunks /\ In "d" (PyStr.split chunk).
Proof.
  apply (chunker_covers_every_word "a b c d e" 3 1 "d"); [lia | lia |].
  vm_compute. right. right. right. left. reflexivity.
Defined.

Lemma progression_length (start step : Z) (n : nat) :
  List.length (PyList.progression start step n) = n.
Proof.
  revert start; induction n as [|n IH]; intros start; [reflexivity|].
  cbn [PyList.progression List.length]. now rewrite IH.
Qed.

Lemma flat_map_singletons {A B : Type} (f : A -> list B) (l : list A) :
  (forall x, In x l -> List.length (f x) = 1%nat) ->
  List.length (flat_map f l) = List.length l.
Proof.
  induction l as [|x l IH]; intros H; [reflexivity|].
  cbn [flat_map List.length]. rewrite length_app, (H x (or_introl eq_refl)).
  rewrite IH; [reflexivity|]. intros y Hy. apply H. now right.
Qed.

(** X13: with [0 < chunk_size] and [overlap < chunk_size] the number of
    chunks is the number of words divided by the stride
    [chunk_size - overlap], rounded up. *)
Theorem chunker_chunk_count (text : string) (chunk_size overlap : Z) :
  0 < chunk_size -> overlap < chunk_size ->
  exists chunks,
    split_text_into_chunks text chunk_size overlap = Ok chunks /\
    Z.of_nat (List.length chunks)
    = (Z.of_nat (word_count text) + (chunk_size - overlap) - 1)
      / (chunk_size - overlap).
Proof.
  intros Hc Ho. exists (sliding_windows text chunk_size overlap).
  split; [apply chunks_are_windows; lia|].
  unfold sliding_windows, word_count.
  set (words := PyStr.split text). set (count := List.length words).
  set (stride := Z.to_nat (chunk_size - overlap)).
  rewrite flat_map_singletons.
  - pose proof (progression_offsets count 0 stride count
                  ltac:(unfold stride; lia) ltac:(lia)) as E.
    apply (f_equal (@List.length Z)) in E.
    rewrite progression_length, length_map in E. rewrite <- E.
    assert (Hst : Z.of_nat stride = chunk_size - overlap)
      by (unfold stride; lia).
    rewrite Hst. cbn [Z.of_nat]. rewrite Z.sub_0_r.
    apply Z2Nat.id. apply Z.div_pos; lia.
  - intros o Hin. apply window_offsets_below in Hin.
    destruct (window words o (Z.to_nat chunk_size)) as [|w ws] eqn:E;
      [|reflexivity].
    apply (f_equal (@List.length string)) in E. unfold window in E.
    rewrite length_firstn, length_skipn in E. cbn [List.length] in E.
    fold count in E. lia.
Qed.

Lemma chunker_chunk_count_witness :
  exists chunks,
    split_text_into_chunks "a b c d e" 3 1 = Ok chunks /\
    Z.of_nat (List.length chunks)
    = (Z.of_nat (word_count "a b c d e") + (3 - 1) - 1) / (3 - 1).
Proof.
  apply (chunker_chunk_count "a b c d e" 3 1); lia.
Defined.

Lemma flat_map_as_map {A B : Type} (f : A -> list B) (g : A -> B)
    (l : list A) :
  (forall x, In x l -> f x = [g x]) -> flat_map f l = map g l.
Proof.
  induction l as [|x l IH]; intros H; [reflexivity|].
  cbn [flat_map map]. rewrite (H x (or_introl eq_refl)).
  rewrite IH; [reflexivity|]. intros y Hy. apply H. now right.
Qed.

Lemma window_nonempty (words : list string) (start size : nat) :
  (start < List.length words)%nat -> (0 < size)%nat ->
  window words start size <> [].
Proof.
  intros Hs Hz E. apply (f_equal (@List.length string)) in E.
  unfold window in E. rewrite length_firstn, length_skipn in E.
  cbn [List.length] in E. lia.
Qed.

(** With a positive chunk size there is one chunk for each offset. *)
Lemma sliding_windows_map (text : string) (chunk_size overlap : Z) :
  0 < chunk_size ->
  sliding_windows text chunk_size overlap =
  map (fun start =>
         PyStr.join " " (window (PyStr.split text) start
                                (Z.to_nat chunk_size)))
      (window_offsets (List.length (PyStr.split text)) 0
                      (Z.to_nat (chunk_size - overlap))
                      (List.length (PyStr.split text))).
Proof.
  intros Hc. unfold sliding_windows. apply flat_map_as_map.
  intros o Hin. apply window_offsets_below in Hin.
  pose proof (window_nonempty (PyStr.split text) o (Z.to_nat chunk_size)
                Hin ltac:(lia)) as Hne.
  now destruct (window (PyStr.split text) o (Z.to_nat chunk_size)).
Qed.

Lemma window_offsets_nth (fuel start stride count k o : nat) :
  nth_error (window_offsets fuel start stride count) k = Some o ->
  o = (start + k * stride)%nat.
Proof.
  revert start k. induction fuel as [|fuel IH]; intros start k.
  - destruct k; discriminate.
  - cbn [window_offsets]. destruct (start <? count)%nat;
      [|destruct k; discriminate].
    destruct k as [|k]; cbn [nth_error].
    + intros H. injection H as <-. lia.
    + intros H. apply IH in H. lia.
Qed.

(** X14: with [0 <= overlap < chunk_size], two consecutive chunks
    overlap as the policy says: the first [overlap] words of a chunk
    are the words of the chunk before it from position
    [chunk_size - overlap] on. *)
Theorem chunker_consecutive_overlap (text : string) (chunk_size overlap : Z)
    (chunks : list string) (k : nat) (c1 c2 : string) :
  0 <= overlap -> overlap < chunk_size ->
  split_text_into_chunks text chunk_size overlap = Ok chunks ->
  nth_error chunks k = Some c1 ->
  nth_error chunks (S k) = Some c2 ->
  firstn (Z.to_nat overlap) (PyStr.split c2)
  = skipn (Z.to_nat (chunk_size - overlap)) (PyStr.split c1).
Proof.
  intros Ho Hc Hs H1 H2.
  rewrite chunks_are_windows in Hs by lia. injection Hs as <-.
  rewrite sliding_windows_map in H1, H2 by lia.
  rewrite nth_error_map in H1, H2.
  set (size := Z.to_nat chunk_size) in *.
  set (stride := Z.to_nat (chunk_size - overlap)) in *.
  set (words := PyStr.split text) in *.
  destruct (nth_error (window_offsets _ 0 stride _) k) as [o1|] eqn:E1;
    [|discriminate].
  destruct (nth_error (window_offsets _ 0 stride _) (S k)) as [o2|] eqn:E2;
    [|discriminate].
  apply window_offsets_nth in E1, E2. cbn [option_map] in H1, H2.
  injection H1 as <-. injection H2 as <-.
  rewrite !split_join_tokens by (apply window_tokens, split_tokens).
  unfold window. rewrite firstn_firstn, skipn_firstn_comm, skipn_skipn.
  subst o1 o2.
  replace (Nat.min (Z.to_nat overlap) size) with (size - stride)%nat
    by (unfold size, stride; lia).
  replace (0 + S k * stride)%nat with (stride + (0 + k * stride))%nat by lia.
  reflexivity.
Qed.

Lemma chunker_consecutive_overlap_witness :
  firstn (Z.to_nat 1) (PyStr.split "c d e")
  = skipn (Z.to_nat (3 - 1)) (PyStr.split "a b c").
Proof.
  apply (chunker_consecutive_overlap "a b c d e" 3 1
           ["a b c"; "c d e"; "e"] 0 "a b c" "c d e");
    (lia || reflexivity).
Defined.

(** ** File names *)

Lemma contains_char_nil (sep : ascii) :
  PyStr.contains "" (String sep "") = false.
Proof. reflexivity. Qed.

Lemma contains_char_cons (sep c : ascii) (s : string) :
  PyStr.contains (String c s) (String sep "")
  = Ascii.eqb sep c || PyStr.contains s (String sep "").
Proof. cbn [PyStr.contains PyStr.startswith]. now rewrite andb_true_r. Qed.

Lemma after_last_none (sep : ascii) (s : string) :
  after_last sep s = None <-> PyStr.contains s (String sep "") = false.
Proof.
  induction s as [|c s IH]; [now split|].
  cbn [after_last]. rewrite contains_char_cons, orb_false_iff, <- IH.
  rewrite (Ascii.eqb_sym sep c).
  destruct (after_last sep s); destruct (Ascii.eqb c sep);
    split; intros H; try discriminate; try (now split); now destruct H.
Qed.

Lemma after_last_some (sep : ascii) (s r : string) :
  after_last sep s = Some r <->
  exists pre, s = pre ++ String sep r /\
              PyStr.contains r (String sep "") = false.
Proof.
  split.
  - revert r. induction s as [|c s IH]; intros r; [discriminate|].
    cbn [after_last]. destruct (after_last sep s) as [r'|] eqn:E.
    + intros H. injection H as <-. destruct (IH r' eq_refl) as [pre [-> Hn]].
      now exists (String c pre).
    + destruct (Ascii.eqb_spec c sep) as [->|]; [|discriminate].
      intros H. injection H as <-. exists "". split; [reflexivity|].
      now apply after_last_none.
  - intros [pre [-> Hn]]. induction pre as [|c pre IH].
    + cbn [append after_last]. apply after_last_none in Hn. rewrite Hn.
      now rewrite Ascii.eqb_refl.
    + cbn [append after_last]. now rewrite IH.
Qed.

(** X15: a file name is accepted exactly when it has a dot and the part
    after its last dot is "pdf" in any letter case; a name without a
    dot is refused. *)
Theorem allowed_file_extension (name : string) :
  allowed_file name = true <->
  exists base ext,
    name = base ++ "." ++ ext /\
    PyStr.contains ext "." = false /\
    PyStr.lower ext = "pdf".
Proof.
  unfold allowed_file. split.
  - destruct (after_last "." name) as [ext|] eqn:E; [|discriminate].
    intros H. apply String.eqb_eq in H.
    apply after_last_some in E as [base [-> Hn]]. now exists base, ext.
  - intros [base [ext [-> [Hn Hl]]]].
    assert (E : after_last "." (base ++ "." ++ ext) = Some ext)
      by (apply after_last_some; now exists base).
    rewrite E. now apply String.eqb_eq.
Qed.

(** ** The composer *)

Lemma lower_char_idempotent (c : ascii) :
  PyStr.lower_char (PyStr.lower_char c) = PyStr.lower_char c.
Proof.
  destruct c as [[] [] [] [] [] [] [] []]; vm_compute; reflexivity.
Qed.

Lemma lower_idempotent (s : string) :
  PyStr.lower (PyStr.lower s) = PyStr.lower s.
Proof.
  induction s as [|c s IH]; [reflexivity|].
  cbn [PyStr.lower]. now rewrite lower_char_idempotent, IH.
Qed.

(** X16: the answer of the rule-based composer depends on the query
    only through its lowercased form and on the retrieved chunks only
    through the first two of them. *)
Theorem composer_uses_two_chunks
    (extract_mock_star_players : string -> list string)
    (random_choice : list string -> string)
    (query : string) (relevant_chunks : list string) :
  generate_mock_chat_response extract_mock_star_players random_choice
                              query relevant_chunks
  = generate_mock_chat_response extract_mock_star_players random_choice
                                (PyStr.lower query)
                                (firstn 2 relevant_chunks).
Proof.
  unfold generate_mock_chat_response.
  rewrite firstn_firstn, lower_idempotent. reflexivity.
Qed.

(** X17: the rule-based composer never returns the empty string,
    whatever the query, the chunks, the extracted names and the random
    draw are. *)
Theorem composer_answer_nonempty
    (extract_mock_star_players : string -> list string)
    (random_choice : list string -> string)
    (query : string) (relevant_chunks : list string) :
  PyStr.nonempty
    (generate_mock_chat_response extract_mock_star_players random_choice
                                 query relevant_chunks) = true.
Proof.
  unfold generate_mock_chat_response, by_sport. cbv zeta.
  repeat match goal with
         | |- PyStr.nonempty (match ?x with _ => _ end) = true =>
             destruct x; cbv iota beta
         end;
    reflexivity.
Qed.

(** ** The API switch *)

Lemma mock_mode_cases (api_token : option string) :
  mock_mode api_token = true <->
  api_token = None \/ api_token = Some "" \/
  api_token = Some placeholder_token.
Proof.
  unfold mock_mode. destruct api_token as [t|].
  - rewrite orb_true_iff, String.eqb_eq, negb_true_iff. split.
    + intros [H | ->]; [|now right; right].
      destruct t; [now right; left | discriminate].
    + intros [H | [H | H]]; try discriminate; injection H as ->;
        [now left | now right].
  - split; [now left | reflexivity].
Qed.

(** X18: [test_huggingface_connection] reports success exactly when no
    real token is configured (unset, empty or the placeholder); with
    any other token it reports failure, because the stubbed API call
    always answers with an error. *)
Theorem connection_test_only_in_mock_mode (api_token : option string) :
  test_huggingface_connection api_token = true <->
  api_token = None \/ api_token = Some "" \/
  api_token = Some placeholder_token.
Proof.
  rewrite <- mock_mode_cases. unfold test_huggingface_connection.
  destruct (mock_mode api_token) eqn:E; [now split|].
  unfold call_huggingface_api. rewrite E. now split.
Qed.

(** X19: whatever the API token is, [generate_article] returns the
    rule-based article and [extract_star_players] the rule-based
    extraction of the same text: the answer of the stubbed API call is
    always refused, so the parsing of an answer is never reached. *)
Theorem generation_always_rule_based
    (generate_mock_article : string -> string)
    (extract_mock_star_players : string -> list string)
    (api_token : option string) (text : string) :
  generate_article_with generate_mock_article api_token text
  = generate_mock_article text /\
  extract_star_players_with extract_mock_star_players api_token text
  = extract_mock_star_players text.
Proof.
  unfold generate_article_with, extract_star_players_with.
  destruct (mock_mode api_token); [now split|].
  now rewrite !api_answer_is_refused.
Qed.

(** ** The selection of star players *)

Lemma mem_string_In (x : string) (l : list string) :
  mem_string x l = true <-> In x l.
Proof.
  unfold mem_string. rewrite existsb_exists. split.
  - intros [y [Hy E]]. apply String.eqb_eq in E. now subst.
  - intros H. exists x. split; [exact H | apply String.eqb_refl].
Qed.

Lemma selection_ok_add (potential : list string)
    (st : list string * list string) (player : string) :
  selection_ok potential st -> In player potential ->
  mem_string (PyStr.lower player) (snd st) = false ->
  selection_ok potential
    ((fst st ++ [player])%list, PyStr.lower player :: snd st).
Proof.
  intros [Hn [Hs Hi]] Hp Hm. unfold selection_ok. cbn [fst snd].
  assert (Hnot : ~ In (PyStr.lower player) (map PyStr.lower (fst st))).
  { intros H. apply Hs, mem_string_In in H. congruence. }
  rewrite map_app. cbn [map]. split; [|split].
  - apply NoDup_app; [exact Hn | repeat constructor; intros [] |].
    intros x Hx [<-|[]]. contradiction.
  - intros x. rewrite in_app_iff. cbn [In]. rewrite <- Hs. tauto.
  - intros p Hin. apply in_app_iff in Hin as [Hin | [<-|[]]]; auto.
Qed.

Lemma full_name_step_ok (potential : list string)
    (st : list string * list string) (player : string) :
  selection_ok potential st -> In player potential ->
  selection_ok potential (full_name_step st player).
Proof.
  intros Hok Hp. unfold full_name_step. destruct st as [u seen].
  destruct (mem_string (PyStr.lower player) seen) eqn:Hm; cbn [negb andb];
    [exact Hok|].
  destruct (PyStr.contains player " "); [|exact Hok].
  now apply (selection_ok_add potential (u, seen)).
Qed.

Lemma single_name_step_ok (potential : list string)
    (st : list string * list string) (player : string) :
  selection_ok potential st -> In player potential ->
  selection_ok potential (single_name_step st player).
Proof.
  intros Hok Hp. unfold single_name_step. destruct st as [u seen].
  destruct (mem_string (PyStr.lower player) seen) eqn:Hm; cbn [negb andb];
    [exact Hok|].
  destruct (List.length u <? 3)%nat; [|exact Hok].
  now apply (selection_ok_add potential (u, seen)).
Qed.

Lemma fold_step_ok (step : list string * list string -> string
                           -> list string * list string)
    (potential l : list string) (st : list string * list string) :
  (forall st p, selection_ok potential st -> In p potential ->
                selection_ok potential (step st p)) ->
  (forall p, In p l -> In p potential) ->
  selection_ok potential st ->
  selection_ok potential (fold_left step l st).
Proof.
  intros Hstep. revert st. induction l as [|p l IH]; intros st Hl Hok;
    [exact Hok|].
  cbn [fold_left]. apply IH; [intros q Hq; apply Hl; now right|].
  apply Hstep; [exact Hok | apply Hl; now left].
Qed.

Lemma unique_players_ok (potential : list string) :
  selection_ok potential
    (fold_left single_name_step potential
       (fold_left full_name_step potential ([], []))).
Proof.
  apply fold_step_ok; [apply single_name_step_ok | auto |].
  apply fold_step_ok; [apply full_name_step_ok | auto |].
  repeat split; cbn; try constructor; intros; tauto.
Qed.

(** The second pass only adds: what is seen stays seen and the kept
    names do not get fewer. *)
Lemma single_name_fold_grows (l : list string)
    (st : list string * list string) :
  (forall x, In x (snd st) ->
             In x (snd (fold_left single_name_step l st))) /\
  (List.length (fst st)
   <= List.length (fst (fold_left single_name_step l st)))%nat.
Proof.
  revert st. induction l as [|p l IH]; intros st; [now split|].
  cbn [fold_left]. destruct (IH (single_name_step st p)) as [Hs Hl].
  unfold single_name_step in *. destruct st as [u seen]. cbn [fst snd].
  destruct (negb _ && _); cbn [fst snd] in *.
  - split; [intros x Hx; apply Hs; now right|].
    rewrite length_app in Hl. cbn [List.length] in Hl. lia.
  - now split.
Qed.

(** After the second pass every candidate is seen, unless three names
    are kept already. *)
Lemma single_name_fold_complete (l : list string)
    (st : list string * list string) (p : string) :
  In p l ->
  In (PyStr.lower p) (snd (fold_left single_name_step l st)) \/
  (3 <= List.length (fst (fold_left single_name_step l st)))%nat.
Proof.
  revert st. induction l as [|q l IH]; intros st; [intros []|].
  intros [->|Hin]; [|cbn [fold_left]; now apply IH].
  cbn [fold_left].
  destruct (single_name_fold_grows l (single_name_step st p)) as [Hs Hl].
  unfold single_name_step in *. destruct st as [u seen].
  destruct (mem_string (PyStr.lower p) seen) eqn:Hm; cbn [negb andb] in *.
  - left. apply Hs. now apply mem_string_In.
  - destruct (Nat.ltb_spec (List.length u) 3); cbn [fst snd] in *.
    + left. apply Hs. now left.
    + right. lia.
Qed.

Lemma two_distinct_members {A : Type} (l : list A) (x y : A) :
  In x l -> In y l -> x <> y -> (2 <= List.length l)%nat.
Proof.
  destruct l as [|a [|b l]]; cbn [In List.length]; intros Hx Hy Hne;
    [tauto | | lia].
  destruct Hx as [<-|[]], Hy as [<-|[]]. contradiction.
Qed.

(** X20: the selection never returns more than three names; and when
    the searches found two names that differ beyond letter case, the
    result holds found names only (no random padding), no two of them
    equal up to letter case. *)
Theorem selection_of_found_names (get_names_by_sport : sport -> list string)
    (text : string) (potential_players : list string) :
  (List.length (select_star_players get_names_by_sport text
                                    potential_players) <= 3)%nat /\
  ((exists a b, In a potential_players /\ In b potential_players /\
                PyStr.lower a <> PyStr.lower b) ->
   select_star_players get_names_by_sport text potential_players
   = firstn 3 (unique_players_of potential_players) /\
   NoDup (map PyStr.lower
              (select_star_players get_names_by_sport text
                                   potential_players)) /\
   forall name,
     In name (select_star_players get_names_by_sport text potential_players)
     -> In name potential_players).
Proof.
  split.
  - unfold select_star_players.
    destruct (_ <=? _)%nat; [|destruct (_ =? _)%nat];
      rewrite length_firstn; lia.
  - intros [a [b [Ha [Hb Hne]]]].
    destruct (unique_players_ok potential_players) as [Hn [Hs Hi]].
    fold (unique_players_of potential_players) in Hn, Hs, Hi.
    assert (Hlen : (2 <= List.length (unique_players_of potential_players))
                   %nat).
    { destruct (single_name_fold_complete potential_players
                  (fold_left full_name_step potential_players ([], []))
                  a Ha) as [Ha' | Hge];
        [|unfold unique_players_of; lia].
      destruct (single_name_fold_complete potential_players
                  (fold_left full_name_step potential_players ([], []))
                  b Hb) as [Hb' | Hge];
        [|unfold unique_players_of; lia].
      apply Hs in Ha', Hb'.
      pose proof (two_distinct_members _ _ _ Ha' Hb' Hne) as H2.
      now rewrite length_map in H2. }
    assert (E : select_star_players get_names_by_sport text potential_players
                = firstn 3 (unique_players_of potential_players)).
    { unfold select_star_players.
      now destruct (Nat.leb_spec 2
                      (List.length (unique_players_of potential_players)));
        [|lia]. }
    rewrite E. split; [reflexivity|]. split.
    + rewrite <- firstn_map.
      rewrite <- (firstn_skipn 3 (map PyStr.lower
                                      (unique_players_of potential_players)))
        in Hn.
      now apply NoDup_app_remove_r in Hn.
    + intros name Hin. apply Hi.
      rewrite <- (firstn_skipn 3 (unique_players_of potential_players)).
      apply in_app_iff. now left.
Qed.

Lemma selection_of_found_names_witness :
  select_star_players (fun _ => ["Joe Root"; "Steve Smith"; "KL Rahul"])
    "India won" ["Kohli"; "Virat Kohli"; "virat kohli"; "Dhoni"]
  = firstn 3 (unique_players_of
                ["Kohli"; "Virat Kohli"; "virat kohli"; "Dhoni"]).
Proof.
  apply (selection_of_found_names
           (fun _ => ["Joe Root"; "Steve Smith"; "KL Rahul"])
           "India won" ["Kohli"; "Virat Kohli"; "virat kohli"; "Dhoni"]).
  exists "Kohli", "Dhoni". repeat split; cbn; auto. discriminate.
Defined.

(** ** Player names *)

Lemma upper_not_space (c : ascii) :
  is_upper c = true -> PyStr.is_space c = false.
Proof.
  destruct c as [[] [] [] [] [] [] [] []]; vm_compute; congruence.
Qed.

Lemma lower_not_space (c : ascii) :
  is_lower c = true -> PyStr.is_space c = false.
Proof.
  destruct c as [[] [] [] [] [] [] [] []]; vm_compute; congruence.
Qed.

(** What a successful reading from each state says about the words that
    [split] finds in the rest of the string. *)
Lemma shape_from_words (q : shape_state) (s : string) :
  shape_from q s = true ->
  match q with
  | WantUpper => cap_word (fst (PyStr.words_aux s))
                 && forallb cap_word (snd (PyStr.words_aux s))
  | WantLower => PyStr.nonempty (fst (PyStr.words_aux s))
                 && all_lower (fst (PyStr.words_aux s))
                 && forallb cap_word (snd (PyStr.words_aux s))
  | InWord => all_lower (fst (PyStr.words_aux s))
              && forallb cap_word (snd (PyStr.words_aux s))
  | InSpace => forallb cap_word
                 (PyStr.cons_word (fst (PyStr.words_aux s))
                                  (snd (PyStr.words_aux s)))
  end = true.
Proof.
  revert q. induction s as [|c s IH]; intros q; [now destruct q|].
  cbn [shape_from PyStr.words_aux].
  pose proof (IH WantLower) as IHl. pose proof (IH InWord) as IHw.
  pose proof (IH InSpace) as IHs. clear IH.
  destruct (PyStr.words_aux s) as [w ws] eqn:E. cbn [fst snd] in *.
  destruct q.
  - intros H. apply andb_true_iff in H as [Hu H].
    rewrite (upper_not_space c Hu). cbn [fst snd cap_word].
    specialize (IHl H). apply andb_true_iff in IHl as [IHl Hws].
    apply andb_true_iff in IHl as [Hn Hl]. now rewrite Hu, Hn, Hl, Hws.
  - intros H. apply andb_true_iff in H as [Hl H].
    rewrite (lower_not_space c Hl). cbn [fst snd PyStr.nonempty all_lower].
    specialize (IHw H). apply andb_true_iff in IHw as [Hw Hws].
    now rewrite Hl, Hw, Hws.
  - destruct (is_lower c) eqn:Hl.
    + intros H. rewrite (lower_not_space c Hl). cbn [fst snd all_lower].
      specialize (IHw H). apply andb_true_iff in IHw as [Hw Hws].
      now rewrite Hl, Hw, Hws.
    + destruct (PyStr.is_space c) eqn:Hs; [|discriminate].
      cbn [fst snd all_lower andb]. intros H.
      apply orb_true_iff in H as [H | H]; [|now apply IHs].
      apply andb_true_iff in H as [_ H]. apply negb_true_iff in H.
      destruct s; [|discriminate]. cbn in E. now injection E as <- <-.
  - destruct (PyStr.is_space c) eqn:Hs.
    + intros H. cbn [fst snd]. unfold PyStr.cons_word at 1.
      cbn [PyStr.nonempty]. now apply IHs.
    + intros H. apply andb_true_iff in H as [Hu H].
      cbn [fst snd]. unfold PyStr.cons_word. cbn [PyStr.nonempty forallb].
      specialize (IHl H). apply andb_true_iff in IHl as [IHl Hws].
      apply andb_true_iff in IHl as [Hn Hl].
      cbn [cap_word]. now rewrite Hu, Hn, Hl, Hws.
Qed.

Lemma name_shape_words (s : string) :
  name_shape s = true ->
  PyStr.split s <> [] /\ forallb cap_word (PyStr.split s) = true.
Proof.
  intros H. apply shape_from_words in H. unfold PyStr.split.
  destruct (PyStr.words_aux s) as [w ws]. cbn [fst snd] in H.
  apply andb_true_iff in H as [Hw Hws].
  destruct w as [|c r]; [discriminate|].
  unfold PyStr.cons_word. cbn [PyStr.nonempty forallb].
  split; [discriminate | now rewrite Hw, Hws].
Qed.

(** X21: a name that [is_valid_player_name] accepts has between 2 and
    40 characters, consists of one or more capitalised words (a letter
    A..Z followed by one or more letters a..z), none of which is an
    excluded word, and is not one of the avoided words. *)
Theorem valid_player_name_words (name : string) (excluded : list string) :
  is_valid_player_name name excluded = true ->
  (2 <= String.length name <= 40)%nat /\
  PyStr.split name <> [] /\
  forallb cap_word (PyStr.split name) = true /\
  (forall part, In part (PyStr.split name) -> ~ In part excluded) /\
  ~ In name avoid_words.
Proof.
  unfold is_valid_player_name.
  destruct (negb (PyStr.nonempty name)); [discriminate|]. cbn [orb].
  destruct (Nat.ltb_spec (String.length name) 2); [discriminate|].
  destruct (Nat.ltb_spec 40 (String.length name)); [discriminate|].
  cbn [orb].
  destruct (existsb _ (PyStr.split name)) eqn:Ex; [discriminate|].
  destruct (name_shape name) eqn:Es; [|discriminate]. cbn [negb].
  destruct (mem_string name avoid_words) eqn:Ea; [discriminate|].
  intros _. destruct (name_shape_words name Es) as [Hne Hcap].
  repeat split; try lia; try assumption.
  - intros part Hin Hex.
    assert (existsb (fun p => mem_string p excluded) (PyStr.split name)
            = true); [|congruence].
    apply existsb_exists. exists part. split; [exact Hin|].
    now apply mem_string_In.
  - intros Hin. apply mem_string_In in Hin. congruence.
Qed.

Lemma valid_player_name_words_witness :
  (2 <= String.length "Virat Kohli" <= 40)%nat /\
  PyStr.split "Virat Kohli" <> [] /\
  forallb cap_word (PyStr.split "Virat Kohli") = true /\
  (forall part, In part (PyStr.split "Virat Kohli") ->
                ~ In part exclude_words) /\
  ~ In "Virat Kohli" avoid_words.
Proof.
  apply (valid_player_name_words "Virat Kohli" exclude_words). reflexivity.
Defined.

Lemma all_lower_no_space (r : string) :
  all_lower r = true -> no_space r = true.
Proof.
  induction r as [|c r IH]; [reflexivity|]. cbn [all_lower no_space].
  intros H. apply andb_true_iff in H as [Hc Hr].
  now rewrite (lower_not_space c Hc), IH.
Qed.

Lemma cap_word_token (w : string) : cap_word w = true -> is_token w = true.
Proof.
  destruct w as [|c r]; [discriminate|]. cbn [cap_word].
  intros H. apply andb_true_iff in H as [H Hl].
  apply andb_true_iff in H as [Hu _].
  unfold is_token. cbn [PyStr.nonempty no_space andb].
  now rewrite (upper_not_space c Hu), all_lower_no_space.
Qed.

Lemma cap_words_tokens (ws : list string) :
  forallb cap_word ws = true -> forallb is_token ws = true.
Proof.
  induction ws as [|w ws IH]; [reflexivity|]. cbn [forallb].
  intros H. apply andb_true_iff in H as [Hw Hws].
  now rewrite cap_word_token, IH.
Qed.

Lemma shape_lower_run (r rest : string) :
  all_lower r = true ->
  shape_from InWord (r ++ rest) = shape_from InWord rest.
Proof.
  induction r as [|c r IH]; [reflexivity|]. cbn [all_lower].
  intros H. apply andb_true_iff in H as [Hc Hr].
  cbn [append shape_from]. rewrite Hc. now apply IH.
Qed.

Lemma shape_cap_word (w rest : string) :
  cap_word w = true ->
  shape_from WantUpper (w ++ rest) = shape_from InWord rest.
Proof.
  destruct w as [|c [|d r]]; try discriminate.
  - cbn [cap_word PyStr.nonempty]. now rewrite andb_false_r.
  - cbn [cap_word PyStr.nonempty all_lower]. intros H.
    apply andb_true_iff in H as [H Hl]. apply andb_true_iff in H as [Hu _].
    apply andb_true_iff in Hl as [Hd Hr].
    cbn [append shape_from]. rewrite Hu, Hd. cbn [andb].
    now apply shape_lower_run.
Qed.

Lemma name_shape_join (ws : list string) :
  ws <> [] -> forallb cap_word ws = true ->
  name_shape (PyStr.join " " ws) = true.
Proof.
  unfold name_shape. induction ws as [|w ws IH]; [easy|]. intros _.
  cbn [forallb]. intros H. apply andb_true_iff in H as [Hw Hws].
  destruct ws as [|w2 ws].
  - change (PyStr.join " " [w]) with w. rewrite <- (append_empty_r w).
    now rewrite shape_cap_word.
  - rewrite join_cons2, shape_cap_word by exact Hw.
    specialize (IH ltac:(discriminate) Hws).
    destruct (PyStr.join " " (w2 :: ws)) as [|c x] eqn:E; [discriminate|].
    cbn [shape_from] in IH. apply andb_true_iff in IH as [Hu Hx].
    cbn [shape_from]. change (is_lower " ") with false.
    change (PyStr.is_space " ") with true. cbv iota.
    rewrite (upper_not_space c Hu), Hu, Hx. now rewrite orb_true_r.
Qed.

Lemma string_length_append (a b : string) :
  String.length (a ++ b) = (String.length a + String.length b)%nat.
Proof.
  induction a as [|c a IH]; [reflexivity|].
  cbn [append String.length]. now rewrite IH.
Qed.

Lemma join_length_ge (w : string) (ws : list string) :
  (String.length w <= String.length (PyStr.join " " (w :: ws)))%nat.
Proof.
  destruct ws as [|w2 ws]; [reflexivity|].
  rewrite join_cons2, string_length_append. lia.
Qed.

Lemma cap_word_length (w : string) :
  cap_word w = true -> (2 <= String.length w)%nat.
Proof.
  destruct w as [|c [|d r]]; try discriminate.
  - cbn [cap_word PyStr.nonempty]. now rewrite andb_false_r.
  - intros _. cbn [String.length]. lia.
Qed.

(** X22: conversely, one or more capitalised words joined by single
    spaces are accepted as a player name as soon as the joined name has
    at most 40 characters and no word is excluded, provided the
    excluded words include the avoided ones (as the set used by the
    extraction does). *)
Theorem capitalised_words_are_valid (ws excluded : list string) :
  ws <> [] ->
  forallb cap_word ws = true ->
  (forall w, In w ws -> ~ In w excluded) ->
  (String.length (PyStr.join " " ws) <= 40)%nat ->
  incl avoid_words excluded ->
  is_valid_player_name (PyStr.join " " ws) excluded = true.
Proof.
  intros Hne Hcap Hex Hlen Hincl.
  assert (Hsplit : PyStr.split (PyStr.join " " ws) = ws)
    by (apply split_join_tokens, cap_words_tokens, Hcap).
  assert (H2 : (2 <= String.length (PyStr.join " " ws))%nat).
  { destruct ws as [|w ws]; [easy|]. cbn [forallb] in Hcap.
    apply andb_true_iff in Hcap as [Hw _].
    pose proof (cap_word_length w Hw). pose proof (join_length_ge w ws). lia. }
  pose proof (name_shape_join ws Hne Hcap) as Hshape.
  remember (PyStr.join " " ws) as name eqn:E.
  assert (Hn : PyStr.nonempty name = true)
    by (destruct name; [cbn in H2; lia | reflexivity]).
  unfold is_valid_player_name. rewrite Hsplit, Hn, Hshape.
  cbn [negb orb].
  destruct (Nat.ltb_spec (String.length name) 2); [lia|].
  destruct (Nat.ltb_spec 40 (String.length name)); [lia|].
  destruct (existsb _ ws) eqn:Eb.
  { apply existsb_exists in Eb as [w [Hin Hm]]. apply mem_string_In in Hm.
    now destruct (Hex w Hin). }
  destruct (mem_string name avoid_words) eqn:Ea; [|reflexivity].
  apply mem_string_In in Ea.
  assert (Htok : forallb is_token avoid_words = true) by reflexivity.
  rewrite forallb_forall in Htok.
  assert (Hone : PyStr.split name = [name]).
  { apply (split_join_tokens [name]). cbn [forallb].
    now rewrite (Htok _ Ea). }
  rewrite Hsplit in Hone.
  destruct (Hex name); [rewrite Hone; now left|].
  now apply Hincl.
Qed.

Lemma incl_by_mem (l1 l2 : list string) :
  forallb (fun a => mem_string a l2) l1 = true -> incl l1 l2.
Proof.
  intros H a Ha. rewrite forallb_forall in H.
  now apply mem_string_In, H.
Qed.

Lemma capitalised_words_are_valid_witness :
  is_valid_player_name (PyStr.join " " ["Virat"; "Kohli"]) exclude_words
  = true.
Proof.
  apply (capitalised_words_are_valid ["Virat"; "Kohli"] exclude_words).
  - discriminate.
  - reflexivity.
  - intros w Hw Hin. apply mem_string_In in Hin.
    destruct Hw as [<-|[<-|[]]]; vm_compute in Hin; discriminate.
  - vm_compute. lia.
  - apply incl_by_mem. vm_compute. reflexivity.
Defined.

(** ** More on classification *)

Lemma lower_append (a b : string) :
  PyStr.lower (a ++ b) = PyStr.lower a ++ PyStr.lower b.
Proof.
  induction a as [|c a IH]; [reflexivity|].
  cbn [append PyStr.lower]. now rewrite IH.
Qed.

Lemma append_assoc (a b c : string) : (a ++ b) ++ c = a ++ (b ++ c).
Proof.
  induction a as [|x a IH]; [reflexivity|]. cbn [append]. now rewrite IH.
Qed.

Lemma count_terms_monotone (terms : list string) (a b : string) :
  (forall term, occurs term a -> occurs term b) ->
  count_terms terms a <= count_terms terms b.
Proof.
  intros H. induction terms as [|t terms IH]; [reflexivity|].
  cbn [count_terms].
  destruct (PyStr.contains a t) eqn:Ea.
  - apply contains_occurs, H, contains_occurs in Ea. rewrite Ea. lia.
  - destruct (PyStr.contains b t); lia.
Qed.

(** X23: the keyword counts only grow with the text (putting text
    before or after a document never lowers the count of any sport),
    and they do not depend on letter case. *)
Theorem sport_count_grows (before text after : string) (s : sport) :
  sport_count text s <= sport_count (before ++ text ++ after) s /\
  sport_count (PyStr.lower text) s = sport_count text s.
Proof.
  unfold sport_count. split.
  - apply count_terms_monotone. intros term [pre [post E]].
    rewrite !lower_append, E.
    exists (PyStr.lower before ++ pre), (post ++ PyStr.lower after).
    now rewrite !append_assoc.
  - now rewrite lower_idempotent.
Qed.

(** ** More on uploads *)

Section UploadFacts.

Variable F : Type.
Variable Index : Type.
Variable lib : library F Index.
Variable generate_article : string -> result string.
Variable extract_star_players : string -> result (list string).

(** X24: when everything succeeds except the removal of the uploaded
    file at the very end, the session has already been replaced by the
    new document, and the user is shown an error instead of the success
    message. *)
Theorem upload_stored_before_cleanup (req : upload_request)
    (w : world F Index) (text : string) (emb : ndarray F) (d : nat)
    (index : Index) (a : string) (p : list string) (e : exn) :
  has_file req = true ->
  PyStr.nonempty (filename req) = true ->
  allowed_file (filename req) = true ->
  file_size req <= MAX_FILE_SIZE ->
  save_file req = Ok tt -> pdf_pages req = Ok text ->
  PyStr.nonempty (PyStr.strip text) = true ->
  encode lib (sliding_windows (PyStr.strip text)
                              default_chunk_size default_overlap) = Ok emb ->
  nth_error (shape emb) 1 = Some d ->
  index_flat_l2 lib d emb = Ok index ->
  generate_article (PyStr.strip text) = Ok a ->
  extract_star_players (PyStr.strip text) = Ok p ->
  remove_file req = Raise e ->
  upload_file lib generate_article extract_star_players req w
  = {| pd := {| article := Some a; star_players := p;
                faiss_index := Some index;
                chunks := sliding_windows (PyStr.strip text)
                                          default_chunk_size default_overlap;
                embeddings := Some emb |};
       flashes := (flashes w
                   ++ [("Processing PDF...", "info");
                       (("Error processing file: " ++ exn_str e)%string,
                        "error")])
                  %list;
       printed := printed w |}.
Proof.
  intros Hf Hn Ha Hs Hsave Hp Ht He Hd Hi Hga Hep Hr.
  run_handler. rewrite Hf, Hn, Ha. cbn [negb].
  destruct (Z.ltb_spec MAX_FILE_SIZE (file_size req)); [lia|].
  rewrite Hsave, Hp. cbn [fst snd].
  rewrite strip_idempotent, Ht. cbn [negb].
  rewrite chunks_are_windows by (unfold default_chunk_size, default_overlap;
                                 lia).
  unfold create_embeddings, build_faiss_index, shape_1.
  rewrite He. cbn [fst snd]. rewrite Hd. cbn [rbind]. rewrite Hi.
  cbn [fst snd]. rewrite Hga, Hep, Hr. cbn [fst snd].
  cbn [pd flashes printed]. rewrite !app_nil_r, <- app_assoc.
  reflexivity.
Qed.

End UploadFacts.

Lemma upload_stored_before_cleanup_witness :
  chunks (pd (upload_file Doubles.working Doubles.article_of
                Doubles.players_of
                {| has_file := true; filename := "match.pdf";
                   file_size := 2048; save_file := Ok tt;
                   pdf_pages := Ok "India won by 5 wickets";
                   remove_file := Raise (OtherError "busy") |}
                Doubles.fresh))
  = ["India won by 5 wickets"].
Proof.
  rewrite (upload_stored_before_cleanup Z (ndarray Z) Doubles.working
             Doubles.article_of Doubles.players_of
             {| has_file := true; filename := "match.pdf";
                file_size := 2048; save_file := Ok tt;
                pdf_pages := Ok "India won by 5 wickets";
                remove_file := Raise (OtherError "busy") |}
             Doubles.fresh "India won by 5 wickets"
             (Doubles.encode_length ["India won by 5 wickets"]) 1%nat
             (Doubles.encode_length ["India won by 5 wickets"])
             "REPORT: India won by 5 wickets"
             ["Virat Kohli"; "Rohit Sharma"; "MS Dhoni"] (OtherError "busy")
             eq_refl eq_refl eq_refl ltac:(vm_compute; discriminate)
             eq_refl eq_refl eq_refl eq_refl eq_refl eq_refl eq_refl
             eq_refl eq_refl).
  reflexivity.
Defined.

Lemma upload_blank_text_keeps_data_witness :
  pd (upload_file Doubles.working Doubles.article_of Doubles.players_of
                  (Doubles.pdf_upload "   ") Doubles.after_first_upload)
  = pd Doubles.after_first_upload.
Proof.
  apply (upload_blank_text_keeps_data Z (ndarray Z) Doubles.working
           Doubles.article_of Doubles.players_of
           (Doubles.pdf_upload "   ") Doubles.after_first_upload).
  reflexivity.
Defined.

Lemma upload_generation_failure_keeps_data_witness :
  pd (upload_file Doubles.working
                  (fun _ => Raise (OtherError "no article"))
                  Doubles.players_of
                  (Doubles.pdf_upload "Second match report")
                  Doubles.after_first_upload)
  = pd Doubles.after_first_upload.
Proof.
  apply (upload_generation_failure_keeps_data Z (ndarray Z) Doubles.working
           (fun _ => Raise (OtherError "no article")) Doubles.players_of
           (Doubles.pdf_upload "Second match report")
           Doubles.after_first_upload).
  intros text. now exists (OtherError "no article").
Defined.
